(** * PedalBoard: the real-time audio engine of [audio_engine.py]

    A shallow embedding of [RealTimeAudioProcessor] and
    [FilePlaybackSession], and the properties of the engine that the
    specification states about them.

    Conventions of the embedding.
    - Samples are exact rationals ([Q]); rounding of IEEE floats is not
      modelled, so a dtype conversion changes the dtype tag only.
    - A 2-D numpy array is a dtype tag, a column count and a list of rows
      (axis 0 is the frame axis, as [sounddevice] and [soundfile] use it).
    - Python statements run in a state-and-exception monad over a [World]:
      the effects of a statement persist when a later one raises.
    - The external libraries (pedalboard, soundfile, sounddevice) are
      interfaces (type classes); the engine is written against them. *)

From Stdlib Require Import QArith Qabs Qminmax Lqa List String Bool Arith Lia ZArith.
From stdpp Require Import base gmap strings.
Import ListNotations.
Open Scope string_scope.
Open Scope list_scope.

(** ** Python exceptions and results *)

Module Py.

(** The [Exception] subclasses that occur in the engine. *)
Inductive exn : Type :=
| KeyError (key : string)
| ValueError (msg : string)
| TypeError (msg : string)
| RuntimeError (msg : string).

(** [str(e)], as the f-strings of the engine print it. The text of a
    [KeyError] is the [repr] of its key: the key between single quotes,
    for a key without quotes, backslashes or control characters. *)
Definition str (e : exn) : string :=
  match e with
  | KeyError key => "'" +:+ key +:+ "'"
  | ValueError msg => msg
  | TypeError msg => msg
  | RuntimeError msg => msg
  end.

Inductive result (A : Type) : Type :=
| Ok (a : A)
| Raise (e : exn).
Arguments Ok {A} a.
Arguments Raise {A} e.

(** A statement: runs in a state, returns or raises, leaves a state. *)
Definition M (S A : Type) : Type := S -> result A * S.

Definition ret {S A} (a : A) : M S A := fun s => (Ok a, s).

Definition bind {S A B} (c : M S A) (k : A -> M S B) : M S B :=
  fun s =>
    match c s with
    | (Ok a, s') => k a s'
    | (Raise e, s') => (Raise e, s')
    end.

Definition raise {S A} (e : exn) : M S A := fun s => (Raise e, s).

Definition gets {S A} (f : S -> A) : M S A := fun s => (Ok (f s), s).

Definition modify {S} (f : S -> S) : M S unit := fun s => (Ok tt, f s).

(** A pure fallible computation as a statement. *)
Definition lift {S A} (r : result A) : M S A := fun s => (r, s).

(** [try: body except Exception as e: handler e]. *)
Definition try_except {S A} (body : M S A) (handler : exn -> M S A) : M S A :=
  fun s =>
    match body s with
    | (Ok a, s') => (Ok a, s')
    | (Raise e, s') => handler e s'
    end.

(** [try: body finally: cleanup], the shape of a [with] block. *)
Definition finally {S A} (body : M S A) (cleanup : S -> S) : M S A :=
  fun s => let (r, s') := body s in (r, cleanup s').

(** [for x in xs: acc = step acc x], leaving at the first exception. *)
Fixpoint for_each {S A B} (xs : list B) (acc : A) (step : A -> B -> M S A)
  : M S A :=
  match xs with
  | [] => ret acc
  | x :: xs' => bind (step acc x) (fun acc' => for_each xs' acc' step)
  end.

End Py.
Import Py.

Declare Scope py_scope.
Delimit Scope py_scope with py.
Notation "x <- c ;; k" := (bind c (fun x => k))
  (at level 100, c at next level, right associativity) : py_scope.
Notation "c ;; k" := (bind c (fun _ => k))
  (at level 100, right associativity) : py_scope.

(** ** numpy arrays *)

Module Np.

Inductive Dtype : Type := float32 | float64.

Definition Dtype_eqb (a b : Dtype) : bool :=
  match a, b with
  | float32, float32 | float64, float64 => true
  | _, _ => false
  end.

(** Type promotion of two dtypes. *)
Definition promote (a b : Dtype) : Dtype :=
  match a, b with
  | float32, float32 => float32
  | _, _ => float64
  end.

(** A 2-D array of shape [(length rows, ncols)]. *)
Record ndarray : Type := mk_ndarray {
  dtype : Dtype;
  ncols : nat;
  rows : list (list Q)
}.

(** [len(a)]: the size of axis 0. *)
Definition len (a : ndarray) : nat := length (rows a).

(** [a.astype(d)]. *)
Definition astype (d : Dtype) (a : ndarray) : ndarray :=
  {| dtype := d; ncols := ncols a; rows := rows a |}.

(** [a[start:stop]] for non-negative bounds. *)
Definition slice (a : ndarray) (start stop : nat) : ndarray :=
  {| dtype := dtype a; ncols := ncols a;
     rows := firstn (stop - start) (skipn start (rows a)) |}.

(** [np.pad(a, ((0, n), (0, 0)))]: [n] rows of zeros after the last. *)
Definition pad (a : ndarray) (n : nat) : ndarray :=
  {| dtype := dtype a; ncols := ncols a;
     rows := (rows a ++ repeat (repeat 0%Q (ncols a)) n)%list |}.

(** [np.zeros((n, c))]; the default dtype is float64. *)
Definition zeros (n c : nat) : ndarray :=
  {| dtype := float64; ncols := c; rows := repeat (repeat 0%Q c) n |}.

(** [a.T]. *)
Definition transpose (a : ndarray) : ndarray :=
  {| dtype := dtype a; ncols := length (rows a);
     rows := map (fun j => map (fun r => nth j r 0%Q) (rows a))
                 (seq 0 (ncols a)) |}.

(** An elementwise operation. *)
Definition map_samples (f : Q -> Q) (a : ndarray) : ndarray :=
  {| dtype := dtype a; ncols := ncols a; rows := map (map f) (rows a) |}.

(** [np.abs(a)]. *)
Definition abs (a : ndarray) : ndarray := map_samples Qabs a.

(** [a / s] and [a * s] for a scalar [s]. *)
Definition div_scalar (a : ndarray) (s : Q) : ndarray :=
  map_samples (fun x => (x / s)%Q) a.
Definition mul_scalar (a : ndarray) (s : Q) : ndarray :=
  map_samples (fun x => (x * s)%Q) a.

(** The maximum of a non-empty run of samples. *)
Fixpoint max_from (x : Q) (xs : list Q) : Q :=
  match xs with
  | [] => x
  | y :: ys => max_from (Qmax x y) ys
  end.

(** [np.max(a)] over all entries; a zero-size array has no maximum. *)
Definition max (a : ndarray) : result Q :=
  match concat (rows a) with
  | [] => Raise (ValueError
      "zero-size array to reduction operation maximum which has no identity")
  | x :: xs => Ok (max_from x xs)
  end.

(** [np.concatenate(arrays, axis=0)]. *)
Fixpoint concatenate_onto (acc : ndarray) (arrays : list ndarray)
  : result ndarray :=
  match arrays with
  | [] => Ok acc
  | a :: rest =>
      if Nat.eqb (ncols a) (ncols acc)
      then concatenate_onto
             {| dtype := promote (dtype acc) (dtype a); ncols := ncols acc;
                rows := (rows acc ++ rows a)%list |} rest
      else Raise (ValueError
        "all the input array dimensions except for the concatenation axis must match exactly")
  end.

Definition concatenate (arrays : list ndarray) : result ndarray :=
  match arrays with
  | [] => Raise (ValueError "need at least one array to concatenate")
  | a :: rest => concatenate_onto a rest
  end.

(** One row of [value] broadcast to [c] columns. *)
Definition broadcast_row (c : nat) (value_cols : nat) (r : list Q) : list Q :=
  if Nat.eqb value_cols c then r else repeat (nth 0 r 0%Q) c.

(** [out[:] = value] for a float32 [out] of shape [(n, c)]: [value] is
    broadcast to that shape and cast; the new content of [out]. *)
Definition setitem_all (n c : nat) (value : ndarray) : result ndarray :=
  if (Nat.eqb (len value) n || Nat.eqb (len value) 1)
     && (Nat.eqb (ncols value) c || Nat.eqb (ncols value) 1)
  then Ok {| dtype := float32; ncols := c;
             rows := map (broadcast_row c (ncols value))
                         (if Nat.eqb (len value) n then rows value
                          else repeat (nth 0 (rows value) []) n) |}
  else Raise (ValueError "could not broadcast input array").

(** [np.float32(0.8)], the float32 nearest to 0.8. In a comparison of a
    float32 scalar with a Python float, numpy converts the Python float to
    float32: [x > 0.8] compares [x] with this number. ([1.0] and [0.5] are
    float32 numbers as they are.) *)
Definition float32_0_8 : Q := 13421773 # 16777216.

(** The peak absolute amplitude of a non-empty array, [0] for an empty one. *)
Definition peak (a : ndarray) : Q :=
  match max (abs a) with
  | Ok p => p
  | Raise _ => 0%Q
  end.

End Np.
Import Np.


(** ** The effect table of the engine *)

(** The thirteen effect classes imported from [pedalboard]. *)
Inductive EffectClass : Type :=
| Chorus | Distortion | Phaser | Clipping
| Compressor | Gain | Limiter
| HighpassFilter | LowpassFilter
| Delay | Reverb | PitchShift | Bitcrush.

(** [EFFECTS]: for each effect name and parameter name, [(min, max, default)]. *)
Definition EFFECTS : gmap string (gmap string (Q * Q * Q)) :=
  list_to_map [
    ("Chorus", list_to_map [
      ("rate_hz", (0.1, 10.0, 1.0)%Q);
      ("depth", (0.0, 1.0, 0.25)%Q);
      ("centre_delay_ms", (1.0, 50.0, 7.0)%Q);
      ("feedback", (0.0, 1.0, 0.0)%Q);
      ("mix", (0.0, 1.0, 0.5)%Q)]);
    ("Distortion", list_to_map [
      ("drive_db", (0.0, 40.0, 10.0)%Q)]);
    ("Phaser", list_to_map [
      ("rate_hz", (0.1, 10.0, 1.0)%Q);
      ("depth", (0.0, 1.0, 0.5)%Q);
      ("centre_frequency_hz", (200.0, 12000.0, 1300.0)%Q);
      ("feedback", (0.0, 1.0, 0.0)%Q);
      ("mix", (0.0, 1.0, 0.5)%Q)]);
    ("Clipping", list_to_map [
      ("threshold_db", (-60.0, 0.0, -6.0)%Q)]);
    ("Compressor", list_to_map [
      ("threshold_db", (-60.0, 0.0, -20.0)%Q);
      ("ratio", (1.0, 20.0, 4.0)%Q);
      ("attack_ms", (0.1, 100.0, 5.0)%Q);
      ("release_ms", (10.0, 1000.0, 100.0)%Q)]);
    ("Gain", list_to_map [
      ("gain_db", (-60.0, 60.0, 0.0)%Q)]);
    ("Limiter", list_to_map [
      ("threshold_db", (-60.0, 0.0, -3.0)%Q);
      ("release_ms", (10.0, 1000.0, 100.0)%Q)]);
    ("HighpassFilter", list_to_map [
      ("cutoff_frequency_hz", (20.0, 20000.0, 440.0)%Q)]);
    ("LowpassFilter", list_to_map [
      ("cutoff_frequency_hz", (20.0, 20000.0, 5000.0)%Q)]);
    ("Delay", list_to_map [
      ("delay_seconds", (0.0, 2.0, 0.5)%Q);
      ("feedback", (0.0, 1.0, 0.3)%Q);
      ("mix", (0.0, 1.0, 0.5)%Q)]);
    ("Reverb", list_to_map [
      ("room_size", (0.0, 1.0, 0.5)%Q);
      ("damping", (0.0, 1.0, 0.5)%Q);
      ("wet_level", (0.0, 1.0, 0.33)%Q);
      ("dry_level", (0.0, 1.0, 0.7)%Q);
      ("width", (0.0, 1.0, 1.0)%Q)]);
    ("PitchShift", list_to_map [
      ("semitones", (-12.0, 12.0, 0.0)%Q)]);
    ("Bitcrush", list_to_map [
      ("bit_depth", (1.0, 32.0, 8.0)%Q)])
  ].

(** [RealTimeAudioProcessor.EFFECT_MAP]: effect name to effect class. *)
Definition EFFECT_MAP : gmap string EffectClass :=
  list_to_map [
    ("Chorus", Chorus); ("Distortion", Distortion); ("Phaser", Phaser);
    ("Clipping", Clipping); ("Compressor", Compressor); ("Gain", Gain);
    ("Limiter", Limiter); ("HighpassFilter", HighpassFilter);
    ("LowpassFilter", LowpassFilter); ("Delay", Delay); ("Reverb", Reverb);
    ("PitchShift", PitchShift); ("Bitcrush", Bitcrush)
  ].

(** One element of [effect_configs]: a dict with the keys ["name"] and
    ["parameters"]. *)
Record EffectConfig : Type := mk_config {
  name : string;
  parameters : gmap string Q
}.

(** ** The external libraries, as interfaces *)

(** [pedalboard]: constructing an effect from keyword arguments, calling one
    plugin on a block, calling a board (with [reset=False]) on a block.
    Calls may raise, and change the internal memory of the plugins. *)
Class Pedalboard_lib : Type := {
  Plugin : Type;
  new_plugin : EffectClass -> gmap string Q -> result Plugin;
  call_plugin : Plugin -> ndarray -> Z -> result ndarray * Plugin;
  call_board : list Plugin -> ndarray -> Z -> result ndarray * list Plugin
}.

(** [soundfile]: [sf.read(path, always_2d=True, dtype='float32')] and
    [sf.write(path, data, samplerate)] over some file system. *)
Class Soundfile_lib : Type := {
  FileSystem : Type;
  sf_read : string -> FileSystem -> result (ndarray * Z);
  sf_write : string -> ndarray -> Z -> FileSystem -> result FileSystem
}.

(** [sounddevice]: an output stream that is created, started, stopped and
    closed. *)
Class Sounddevice_lib : Type := {
  OutputStream : Type;
  new_OutputStream : Z -> nat -> Dtype -> result OutputStream;
  stream_start : OutputStream -> result unit;
  stream_stop : OutputStream -> result unit;
  stream_close : OutputStream -> result unit
}.

(** The [:.2f] format of a float, used in one message of [load_file]. *)
Class Format_lib : Type := {
  format_2f : Q -> string
}.

(** ** The engine *)

Section Engine.

Context {PB : Pedalboard_lib} {SF : Soundfile_lib} {SD : Sounddevice_lib}
  {FMT : Format_lib}.

(** The fields of a [RealTimeAudioProcessor], but for the lock. *)
Record RealTimeAudioProcessor : Type := mk_processor {
  samplerate : Z;
  board : list Plugin;
  safety_limiter : Plugin;
  is_active : bool;
  recorded_chunks : list ndarray
}.

(** The fields of a [FilePlaybackSession], but for [processor], which is
    the one processor of the world. *)
Record FilePlaybackSession : Type := mk_session {
  audio_file : string;
  stream : option OutputStream;
  is_running : bool;
  audio_data : option ndarray;
  current_frame : nat
}.

(** What the engine does to its lock and to its chain, in program order. *)
Inductive Event : Type :=
| EvAcquire
| EvRelease
| EvNewBoard
| EvConstruct (effect_class : EffectClass) (kwargs : gmap string Q)
| EvSetBoard.

(** Everything a statement of the engine can read or change: the processor,
    the playback session, what was printed, the events of the lock and of
    the chain, the output block of the audio driver, the file system. *)
Record World : Type := mk_world {
  processor : RealTimeAudioProcessor;
  session : FilePlaybackSession;
  stdout : list string;
  events : list Event;
  outdata : ndarray;
  disk : FileSystem
}.

Definition with_processor (f : RealTimeAudioProcessor -> RealTimeAudioProcessor)
  (w : World) : World :=
  {| processor := f (processor w); session := session w; stdout := stdout w;
     events := events w; outdata := outdata w; disk := disk w |}.

Definition with_session (f : FilePlaybackSession -> FilePlaybackSession)
  (w : World) : World :=
  {| processor := processor w; session := f (session w); stdout := stdout w;
     events := events w; outdata := outdata w; disk := disk w |}.

Definition set_board (b : list Plugin) : World -> World :=
  with_processor (fun p =>
    {| samplerate := samplerate p; board := b;
       safety_limiter := safety_limiter p; is_active := is_active p;
       recorded_chunks := recorded_chunks p |}).

Definition set_safety_limiter (l : Plugin) : World -> World :=
  with_processor (fun p =>
    {| samplerate := samplerate p; board := board p;
       safety_limiter := l; is_active := is_active p;
       recorded_chunks := recorded_chunks p |}).

Definition set_is_active (b : bool) : World -> World :=
  with_processor (fun p =>
    {| samplerate := samplerate p; board := board p;
       safety_limiter := safety_limiter p; is_active := b;
       recorded_chunks := recorded_chunks p |}).

Definition set_recorded_chunks (l : list ndarray) : World -> World :=
  with_processor (fun p =>
    {| samplerate := samplerate p; board := board p;
       safety_limiter := safety_limiter p; is_active := is_active p;
       recorded_chunks := l |}).

Definition set_stream (s : option OutputStream) : World -> World :=
  with_session (fun x =>
    {| audio_file := audio_file x; stream := s; is_running := is_running x;
       audio_data := audio_data x; current_frame := current_frame x |}).

Definition set_is_running (b : bool) : World -> World :=
  with_session (fun x =>
    {| audio_file := audio_file x; stream := stream x; is_running := b;
       audio_data := audio_data x; current_frame := current_frame x |}).

Definition set_audio_data (d : option ndarray) : World -> World :=
  with_session (fun x =>
    {| audio_file := audio_file x; stream := stream x;
       is_running := is_running x; audio_data := d;
       current_frame := current_frame x |}).

Definition set_current_frame (n : nat) : World -> World :=
  with_session (fun x =>
    {| audio_file := audio_file x; stream := stream x;
       is_running := is_running x; audio_data := audio_data x;
       current_frame := n |}).

(** [print(line)]. *)
Definition print (line : string) (w : World) : World :=
  {| processor := processor w; session := session w;
     stdout := (stdout w ++ [line])%list;
     events := events w; outdata := outdata w; disk := disk w |}.

Definition emit (e : Event) (w : World) : World :=
  {| processor := processor w; session := session w; stdout := stdout w;
     events := (events w ++ [e])%list; outdata := outdata w; disk := disk w |}.

Definition set_outdata (a : ndarray) (w : World) : World :=
  {| processor := processor w; session := session w; stdout := stdout w;
     events := events w; outdata := a; disk := disk w |}.

Definition set_disk (d : FileSystem) (w : World) : World :=
  {| processor := processor w; session := session w; stdout := stdout w;
     events := events w; outdata := outdata w; disk := d |}.

Local Open Scope py_scope.

(** [with self.lock: body]: the lock is released however [body] ends. *)
Definition with_lock {A} (body : M World A) : M World A :=
  modify (emit EvAcquire) ;; finally body (emit EvRelease).

(** [d[key]] on a dict. *)
Definition getitem {V} (d : gmap string V) (key : string) : M World V :=
  match d !! key with
  | Some v => ret v
  | None => raise (KeyError key)
  end.

(** The call of [effect_class] with the keyword arguments [kwargs]. *)
Definition construct (effect_class : EffectClass) (kwargs : gmap string Q)
  : M World Plugin :=
  modify (emit (EvConstruct effect_class kwargs)) ;;
  lift (new_plugin effect_class kwargs).

(** [self.board(x, self.samplerate, reset=False)]. *)
Definition run_board (x : ndarray) : M World ndarray :=
  fun w =>
    let (r, b) := call_board (board (processor w)) x (samplerate (processor w))
    in (r, set_board b w).

(** [self.safety_limiter(x, self.samplerate)]. *)
Definition run_safety_limiter (x : ndarray) : M World ndarray :=
  fun w =>
    let (r, l) := call_plugin (safety_limiter (processor w)) x
                    (samplerate (processor w))
    in (r, set_safety_limiter l w).

(** The keyword arguments of the safety limiter of [__init__]. *)
Definition safety_limiter_kwargs : gmap string Q :=
  list_to_map [("threshold_db", (-1.0)%Q); ("release_ms", 100.0%Q)].

(** [RealTimeAudioProcessor.__init__]. *)
Definition RealTimeAudioProcessor_init (samplerate : Z)
  : result RealTimeAudioProcessor :=
  match new_plugin Limiter safety_limiter_kwargs with
  | Ok l => Ok {| samplerate := samplerate; board := [];
                  safety_limiter := l; is_active := false;
                  recorded_chunks := [] |}
  | Raise e => Raise e
  end.

(** The body of the loop of [update_effects]: look the class up, construct
    the effect, append it to the new board. *)
Definition append_effect (new_board : list Plugin) (effect_config : EffectConfig)
  : M World (list Plugin) :=
  effect_class <- getitem EFFECT_MAP (name effect_config) ;;
  effect <- construct effect_class (parameters effect_config) ;;
  ret (new_board ++ [effect])%list.

(** [RealTimeAudioProcessor.update_effects]. *)
Definition update_effects (effect_configs : list EffectConfig) : M World unit :=
  with_lock (
    modify (emit EvNewBoard) ;;
    new_board <- for_each effect_configs [] append_effect ;;
    modify (emit EvSetBoard) ;;
    modify (set_board new_board)).

(** [if a.dtype != np.float32: a = a.astype(np.float32)]. *)
Definition ensure_float32 (a : ndarray) : ndarray :=
  if negb (Dtype_eqb (dtype a) float32) then astype float32 a else a.

(** [RealTimeAudioProcessor.process_chunk]. *)
Definition process_chunk (audio_chunk : ndarray) : M World ndarray :=
  with_lock (
    let audio_chunk := ensure_float32 audio_chunk in
    n <- gets (fun w => length (board (processor w))) ;;
    if (0 <? n)%nat then
      try_except (
        processed <- run_board (transpose audio_chunk) ;;
        let processed := transpose processed in
        processed <- run_safety_limiter processed ;;
        ret processed)
      (fun e =>
        modify (print ("Processing error: " +:+ str e)) ;;
        ret audio_chunk)
    else ret audio_chunk).

(** [RealTimeAudioProcessor.save_recording]. *)
Definition save_recording (filename : string) : M World bool :=
  chunks <- gets (fun w => recorded_chunks (processor w)) ;;
  match chunks with
  | _ :: _ =>
      try_except (
        audio <- lift (concatenate chunks) ;;
        sr <- gets (fun w => samplerate (processor w)) ;;
        (fun w => match sf_write filename audio sr (disk w) with
                  | Ok d => (Ok tt, set_disk d w)
                  | Raise e => (Raise e, w)
                  end) ;;
        ret true)
      (fun e =>
        modify (print ("Save error: " +:+ str e)) ;;
        ret false)
  | [] => ret false
  end.

(** [FilePlaybackSession.__init__]. *)
Definition FilePlaybackSession_init (audio_file : string) : FilePlaybackSession :=
  {| audio_file := audio_file; stream := None; is_running := false;
     audio_data := None; current_frame := 0 |}.

(** [sf.read(self.audio_file, always_2d=True, dtype='float32')]. *)
Definition read_audio_file : M World (ndarray * Z) :=
  fun w => (sf_read (audio_file (session w)) (disk w), w).

(** [FilePlaybackSession.load_file]. *)
Definition load_file : M World bool :=
  try_except (
    read <- read_audio_file ;;
    let data := fst read in
    max_val <- lift (Np.max (Np.abs data)) ;;
    data <-
      (if Qlt_le_dec 1.0 max_val then
         modify (print ("Warning: Audio file clipped (max: "
                        +:+ format_2f max_val +:+ "). Normalizing...")) ;;
         ret (mul_scalar (div_scalar data max_val) 0.5)
       else if Qlt_le_dec float32_0_8 max_val then
         ret (mul_scalar (div_scalar data max_val) 0.5)
       else ret data) ;;
    modify (set_audio_data (Some data)) ;;
    ret true)
  (fun e =>
    modify (print ("Load error: " +:+ str e)) ;;
    ret false).

(** [len(self.audio_data)]; [len(None)] raises. *)
Definition len_audio_data : M World nat :=
  d <- gets (fun w => audio_data (session w)) ;;
  match d with
  | Some a => ret (len a)
  | None => raise (TypeError "object of type 'NoneType' has no len()")
  end.

(** [self.audio_data[start:stop]]; subscripting [None] raises. *)
Definition slice_audio_data (start stop : nat) : M World ndarray :=
  d <- gets (fun w => audio_data (session w)) ;;
  match d with
  | Some a => ret (slice a start stop)
  | None => raise (TypeError "'NoneType' object is not subscriptable")
  end.

(** [outdata[:] = value], for the output block of [frames] stereo frames. *)
Definition assign_outdata (frames : nat) (value : ndarray) : M World unit :=
  out <- lift (setitem_all frames 2 value) ;;
  modify (set_outdata out).

(** [if self.current_frame >= len(self.audio_data): self.is_running = False]. *)
Definition finish_if_exhausted : M World unit :=
  cur <- gets (fun w => current_frame (session w)) ;;
  n <- len_audio_data ;;
  if (n <=? cur)%nat then modify (set_is_running false) else ret tt.

(** [if status: print(f"Status: {status}")]; [status] is [None] when the
    driver reports nothing. *)
Definition report_status (status : option string) : M World unit :=
  match status with
  | Some s => modify (print ("Status: " +:+ s))
  | None => ret tt
  end.

(** The [audio_callback] closure of [FilePlaybackSession.start]. *)
Definition audio_callback (frames : nat) (status : option string) : M World unit :=
  report_status status ;;
  running <- gets (fun w => is_running (session w)) ;;
  more <- (if running then
             cur <- gets (fun w => current_frame (session w)) ;;
             n <- len_audio_data ;;
             ret (cur <? n)%nat
           else ret false) ;;
  if more then
    cur <- gets (fun w => current_frame (session w)) ;;
    n <- len_audio_data ;;
    let end_frame := Nat.min (cur + frames) n in
    chunk <- slice_audio_data cur end_frame ;;
    let chunk :=
      if (len chunk <? frames)%nat then pad chunk (frames - len chunk)
      else chunk in
    processed <- process_chunk chunk ;;
    cur <- gets (fun w => current_frame (session w)) ;;
    modify (fun w => set_recorded_chunks
      (recorded_chunks (processor w)
       ++ [slice processed 0 (end_frame - cur)])%list w) ;;
    assign_outdata frames processed ;;
    modify (set_current_frame end_frame) ;;
    finish_if_exhausted
  else
    assign_outdata frames (zeros frames 2) ;;
    finish_if_exhausted.

(** [FilePlaybackSession.start]. *)
Definition start : M World bool :=
  loaded <- load_file ;;
  if negb loaded then ret false
  else
    modify (set_is_running true) ;;
    modify (set_is_active true) ;;
    modify (set_recorded_chunks []) ;;
    modify (set_current_frame 0) ;;
    sr <- gets (fun w => samplerate (processor w)) ;;
    s <- lift (new_OutputStream sr 2 float32) ;;
    modify (set_stream (Some s)) ;;
    lift (stream_start s) ;;
    ret true.

(** [FilePlaybackSession.stop]. *)
Definition stop : M World unit :=
  modify (set_is_running false) ;;
  s <- gets (fun w => stream (session w)) ;;
  match s with
  | Some s => lift (stream_stop s) ;; lift (stream_close s)
  | None => ret tt
  end ;;
  modify (set_is_active false).

(** The worlds of a playback session: [start] has returned [True], and
    since then the driver has invoked the callback, and the control thread
    has replaced the chain or stopped the session, any number of times. *)
Inductive playing : World -> Prop :=
| playing_start w0 w :
    start w0 = (Ok true, w) -> playing w
| playing_callback frames status w r w' :
    playing w -> audio_callback frames status w = (r, w') -> playing w'
| playing_update effect_configs w r w' :
    playing w -> update_effects effect_configs w = (r, w') -> playing w'
| playing_stop w r w' :
    playing w -> stop w = (r, w') -> playing w'.

End Engine.

(** ** Notions of the specification *)

(** Following the specification ("clamp to range"): a value brought into
    the closed range [[lo, hi]]. *)
Definition spec_clamp (lo hi v : Q) : Q :=
  if Qlt_le_dec v lo then lo
  else if Qlt_le_dec hi v then hi
  else v.

(** Following the specification: the parameters of a stage, each one
    clamped to the range that [EFFECTS] declares for it. *)
Definition spec_clamp_parameters (effect_name : string)
  (kwargs : gmap string Q) : gmap string Q :=
  map_imap (fun param v =>
    match EFFECTS !! effect_name ≫= (fun ranges => ranges !! param) with
    | Some (lo, hi, _) => Some (spec_clamp lo hi v)
    | None => Some v
    end) kwargs.

(** Following the specification ([concat(A, B, C)]): the blocks [first],
    then [rest], joined in order along the frame axis. *)
Definition spec_concat (first : ndarray) (rest : list ndarray) : ndarray :=
  {| dtype := fold_left (fun d b => promote d (dtype b)) rest (dtype first);
     ncols := ncols first;
     rows := concat (map rows (first :: rest)) |}.


(** The cursor of the playback session is within the loaded buffer [data],
    and the session is not running once the cursor is at its end. *)
Definition cursor_in_range {PB : Pedalboard_lib} {SF : Soundfile_lib}
  {SD : Sounddevice_lib} (w : World) (data : ndarray) : Prop :=
  audio_data (session w) = Some data /\
  current_frame (session w) <= len data /\
  (current_frame (session w) = len data -> is_running (session w) = false).

(** Silence for an output block of [frames] stereo frames. *)
Definition silence (frames : nat) : ndarray :=
  {| dtype := float32; ncols := 2; rows := repeat [0%Q; 0%Q] frames |}.

(** An amplitude [a] lies above the level of [db] decibels (re full scale),
    that is [20 * log10 a > db], stated without logarithms:
    [a ^ (20 * den) > 10 ^ num] for [db = num / den]. *)
Definition above_dB (a db : Q) : Prop :=
  (10 ^ Qnum db < a ^ (20 * Zpos (Qden db)))%Q.

(** The plugin [p] is what the class named by the config [c] returns for
    the parameters of [c], as they are. *)
Definition built_from {PB : Pedalboard_lib} (c : EffectConfig) (p : Plugin)
  : Prop :=
  exists effect_class,
    EFFECT_MAP !! name c = Some effect_class /\
    new_plugin effect_class (parameters c) = Ok p.

(** The constructor calls that [update_effects] makes for a list of configs
    whose names are all known: one per config, with its parameters. *)
Definition construct_events (effect_configs : list EffectConfig) : list Event :=
  omap (fun c => effect_class ← EFFECT_MAP !! name c;
                 Some (EvConstruct effect_class (parameters c)))
       effect_configs.

(** The lock is held after the event [e], given it was [held] before. *)
Definition held_after (held : bool) (e : Event) : bool :=
  match e with
  | EvAcquire => true
  | EvRelease => false
  | _ => held
  end.

(** An event that allocates: a new board or a new effect stage. *)
Definition is_construction (e : Event) : bool :=
  match e with
  | EvNewBoard | EvConstruct _ _ => true
  | _ => false
  end.

(** Every construction of the trace happens while the lock is held. *)
Fixpoint built_under_lock (held : bool) (trace : list Event) : bool :=
  match trace with
  | [] => true
  | e :: rest =>
      (if is_construction e then held else true)
      && built_under_lock (held_after held e) rest
  end.

(** Following the specification: every construction of the trace happens
    while the lock is free, only the swap is done under the lock. *)
Fixpoint built_outside_lock (held : bool) (trace : list Event) : bool :=
  match trace with
  | [] => true
  | e :: rest =>
      (if is_construction e then negb held else true)
      && built_outside_lock (held_after held e) rest
  end.

(** A stage of [process_chunk] raises [e] on [audio_chunk] in the world [w]:
    the chain is not empty, and either the board raises, or the board
    returns and the safety limiter raises on its output. *)
Definition stage_raises {PB : Pedalboard_lib} {SF : Soundfile_lib}
  {SD : Sounddevice_lib} (audio_chunk : ndarray) (w : World) (e : exn) : Prop :=
  board (processor w) <> [] /\
  let sr := samplerate (processor w) in
  let after_board :=
    call_board (board (processor w)) (transpose (ensure_float32 audio_chunk)) sr in
  match fst after_board with
  | Raise e' => e' = e
  | Ok processed =>
      fst (call_plugin (safety_limiter (processor w)) (transpose processed) sr)
      = Raise e
  end.

(** The exception that a stage of [process_chunk] raises on [audio_chunk]
    in the world [w], if one does: that of the board, or else that of the
    safety limiter on the output of the board; none with an empty chain. *)
Definition stage_failure {PB : Pedalboard_lib} {SF : Soundfile_lib}
  {SD : Sounddevice_lib} (audio_chunk : ndarray) (w : World) : option exn :=
  match board (processor w) with
  | [] => None
  | _ :: _ =>
      let sr := samplerate (processor w) in
      match fst (call_board (board (processor w))
                   (transpose (ensure_float32 audio_chunk)) sr) with
      | Raise e => Some e
      | Ok processed =>
          match fst (call_plugin (safety_limiter (processor w))
                       (transpose processed) sr) with
          | Raise e => Some e
          | Ok _ => None
          end
      end
  end.

(** ** Stand-ins for the external libraries

    Small executable instances of the interfaces, on which the theorems
    are run at concrete inputs. *)

Module Doubles.

(** A plugin that remembers how it was constructed and passes audio through. *)
Definition echo_lib : Pedalboard_lib :=
  {| Plugin := EffectClass * gmap string Q;
     new_plugin := fun c kwargs => Ok (c, kwargs);
     call_plugin := fun p x _ => (Ok x, p);
     call_board := fun b x _ => (Ok x, b) |}.

(** A pedalboard whose constructor rejects a keyword argument that
    [EFFECTS] does not list for the class of name [Gain], and whose
    processing always raises. *)
Definition faulty_lib : Pedalboard_lib :=
  {| Plugin := EffectClass * gmap string Q;
     new_plugin := fun c kwargs =>
       match c with
       | Gain =>
           if bool_decide (dom kwargs ⊆ ({["gain_db"]} : gset string))
           then Ok (c, kwargs)
           else Raise (TypeError "__init__(): incompatible constructor arguments")
       | _ => Ok (c, kwargs)
       end;
     call_plugin := fun p _ _ => (Raise (RuntimeError "plugin failed"), p);
     call_board := fun b _ _ => (Raise (RuntimeError "plugin failed"), b) |}.

(** Files as an association list from path to content and sample rate. *)
Definition assoc_files : Soundfile_lib :=
  {| FileSystem := list (string * (ndarray * Z));
     sf_read := fun path fs =>
       match find (fun entry => String.eqb (fst entry) path) fs with
       | Some entry => Ok (snd entry)
       | None => Raise (RuntimeError "Error opening file")
       end;
     sf_write := fun path data sr fs => Ok ((path, (data, sr)) :: fs) |}.

(** A driver whose streams always open and close. *)
Definition null_device : Sounddevice_lib :=
  {| OutputStream := unit;
     new_OutputStream := fun _ _ _ => Ok tt;
     stream_start := fun _ => Ok tt;
     stream_stop := fun _ => Ok tt;
     stream_close := fun _ => Ok tt |}.

Definition plain_format : Format_lib :=
  {| format_2f := fun _ => "?.??" |}.

(** A stereo float32 block. *)
Definition block (rows : list (list Q)) : ndarray :=
  {| dtype := float32; ncols := 2; rows := rows |}.

(** A world around a fresh processor at 44100 Hz, with the given board,
    accumulated chunks, audio file and files on disk. *)
Definition world_of {PB : Pedalboard_lib} (limiter : Plugin)
  (b : list Plugin) (chunks : list ndarray)
  (file : string) (fs : list (string * (ndarray * Z)))
  : World (SF := assoc_files) (SD := null_device) :=
  @mk_world PB assoc_files null_device
    {| samplerate := 44100; board := b; safety_limiter := limiter;
       is_active := false; recorded_chunks := chunks |}
    (FilePlaybackSession_init file) [] [] (block []) fs.

(** The safety limiter, as [echo_lib] and [faulty_lib] construct it. *)
Definition limiter : EffectClass * gmap string Q :=
  (Limiter, safety_limiter_kwargs).

(** A fresh engine: empty board, nothing accumulated, no file on disk. *)
Definition quiet_world : World (PB := echo_lib) :=
  world_of (PB := echo_lib) limiter [] [] "in.wav" [].

(** An engine whose board holds one effect, all of whose calls raise. *)
Definition faulty_world : World (PB := faulty_lib) :=
  world_of (PB := faulty_lib) limiter [(Gain, ∅)] [] "in.wav" [].

(** A block that clips: peak amplitude 2.0. *)
Definition loud_block : ndarray := block [[2; -2]; [1; 0.5]]%Q.

(** A gain stage asked for 100 dB, above the declared maximum of 60 dB. *)
Definition gain_100 : EffectConfig :=
  mk_config "Gain" {[ "gain_db" := 100.0%Q ]}.

(** A gain stage with a keyword argument that [Gain] does not have. *)
Definition gain_bogus : EffectConfig :=
  mk_config "Gain" {[ "bogus" := 1.0%Q ]}.

(** A stage of a kind that is not in [EFFECT_MAP]. *)
Definition fuzz : EffectConfig := mk_config "Fuzz" ∅.

(** Files of peak amplitude 1.5, 0.9 and 0.3. *)
Definition file_peak_1_5 : ndarray :=
  block [[1.5; -0.75]; [0.3; 0]; [-0.6; 0.9]]%Q.
Definition file_peak_0_9 : ndarray :=
  block [[0.45; -0.9]; [0.3; 0]]%Q.
Definition file_peak_0_3 : ndarray :=
  block [[0.1; -0.3]; [0.3; 0]]%Q.

Definition file_peak_0_3_long : ndarray :=
  block [[0.1; -0.3]; [0.3; 0]; [0.2; 0.1]]%Q.

(** An engine with the file [data] on disk at ["in.wav"], at 44100 Hz. *)
Definition world_with_file (data : ndarray) : World (PB := echo_lib) :=
  world_of (PB := echo_lib) limiter [] [] "in.wav" [("in.wav", (data, 44100%Z))].

(** Three accumulated blocks. *)
Definition block_A : ndarray := block [[0.1; 0.2]; [0.3; 0.4]]%Q.
Definition block_B : ndarray := block [[0.5; 0.6]]%Q.
Definition block_C : ndarray := block [[0.7; 0.8]; [0.9; 1.0]]%Q.
Definition recorded_world : World (PB := echo_lib) :=
  world_of (PB := echo_lib) limiter [] [block_A; block_B; block_C] "in.wav" [].

(** A playback session just started on a file of three frames. *)
Definition started_world : World (PB := echo_lib) :=
  snd (start (FMT := plain_format) (world_with_file file_peak_0_3_long)).

End Doubles.

(** ** The live recording session *)

(** [sounddevice], full duplex: a stream with an input and an output that is
    created, started, stopped and closed. *)
Class Sounddevice_duplex_lib : Type := {
  Stream : Type;
  new_Stream : Z -> nat -> Dtype -> result Stream;
  duplex_start : Stream -> result unit;
  duplex_stop : Stream -> result unit;
  duplex_close : Stream -> result unit
}.

(** [np.zeros_like(a)]: zeros of the shape and dtype of [a]. *)
Definition zeros_like (a : ndarray) : ndarray :=
  {| dtype := dtype a; ncols := ncols a;
     rows := repeat (repeat 0%Q (ncols a)) (len a) |}.

Section Live.

Context {PB : Pedalboard_lib} {SF : Soundfile_lib} {SD : Sounddevice_lib}
  {DX : Sounddevice_duplex_lib}.

Local Open Scope py_scope.

(** The fields [stream] and [is_running] of a [LiveRecordingSession];
    [processor] is the one processor of the world. *)
Record LiveRecordingSession : Type := mk_live {
  live_stream : option Stream;
  live_is_running : bool
}.

(** [LiveRecordingSession.__init__]. *)
Definition LiveRecordingSession_init : LiveRecordingSession :=
  {| live_stream := None; live_is_running := false |}.

(** A world with a live recording session in it. *)
Record LiveWorld : Type := mk_live_world {
  live : LiveRecordingSession;
  world : World
}.

(** A statement of the engine, run in a world with a live session. *)
Definition in_world {A} (c : M World A) : M LiveWorld A :=
  fun lw => let (r, w) := c (world lw) in (r, {| live := live lw; world := w |}).

Definition set_live_stream (s : option Stream) (lw : LiveWorld) : LiveWorld :=
  {| live := {| live_stream := s;
                live_is_running := live_is_running (live lw) |};
     world := world lw |}.

Definition set_live_is_running (b : bool) (lw : LiveWorld) : LiveWorld :=
  {| live := {| live_stream := live_stream (live lw); live_is_running := b |};
     world := world lw |}.

(** [self.processor.recorded_chunks.append(chunk)]. *)
Definition append_recorded (chunk : ndarray) (w : World) : World :=
  set_recorded_chunks (recorded_chunks (processor w) ++ [chunk]) w.

(** The [audio_callback] closure of [LiveRecordingSession.start]. *)
Definition live_audio_callback (indata : ndarray) (frames : nat)
  (status : option string) : M LiveWorld unit :=
  in_world (report_status status) ;;
  running <- gets (fun lw => live_is_running (live lw)) ;;
  if running then
    processed <- in_world (process_chunk indata) ;;
    in_world (modify (append_recorded processed)) ;;
    in_world (assign_outdata frames processed)
  else
    in_world (assign_outdata frames (zeros_like indata)).

(** [LiveRecordingSession.start]. *)
Definition live_start : M LiveWorld unit :=
  modify (set_live_is_running true) ;;
  in_world (modify (set_is_active true)) ;;
  in_world (modify (set_recorded_chunks [])) ;;
  sr <- gets (fun lw => samplerate (processor (world lw))) ;;
  s <- lift (new_Stream sr 2 float32) ;;
  modify (set_live_stream (Some s)) ;;
  lift (duplex_start s).

(** [LiveRecordingSession.stop]. *)
Definition live_stop : M LiveWorld unit :=
  modify (set_live_is_running false) ;;
  s <- gets (fun lw => live_stream (live lw)) ;;
  match s with
  | Some s => lift (duplex_stop s) ;; lift (duplex_close s)
  | None => ret tt
  end ;;
  in_world (modify (set_is_active false)).

End Live.

(** ** The effect cards of [app.py] *)

(** The fields [effect_name] and [parameters] of an [EffectCard]; its
    widgets are not modelled. *)
Record EffectCard : Type := mk_card {
  effect_name : string;
  card_parameters : gmap string Q
}.

(** The loop of [EffectCard.__init__] over [EFFECTS[effect_name].items()]:
    every parameter of the effect is set to its declared default. *)
Definition EffectCard_init (effect_name : string) : result EffectCard :=
  match EFFECTS !! effect_name with
  | Some ranges =>
      Ok {| effect_name := effect_name;
            card_parameters := (fun range => snd range) <$> ranges |}
  | None => Raise (KeyError effect_name)
  end.

(** The list comprehension of [RealTimeAudioApp.update_effect_chain]. *)
Definition chain_config (effect_chain : list EffectCard) : list EffectConfig :=
  map (fun card => mk_config (effect_name card) (card_parameters card))
      effect_chain.

(** [RealTimeAudioApp.update_effect_chain]. *)
Definition update_effect_chain {PB : Pedalboard_lib} {SF : Soundfile_lib}
  {SD : Sounddevice_lib} (effect_chain : list EffectCard) : M World unit :=
  update_effects (chain_config effect_chain).

(** ** Further notions *)


(** The default of a range lies within it: [min <= default <= max]. *)
Definition range_ok (range : Q * Q * Q) : bool :=
  let '(lo, hi, d) := range in Qle_bool lo d && Qle_bool d hi.

(** The frames accumulated so far, in order. *)
Definition recorded_rows {PB : Pedalboard_lib} {SF : Soundfile_lib}
  {SD : Sounddevice_lib} (w : World) : list (list Q) :=
  concat (map rows (recorded_chunks (processor w))).

(** The worlds that invocations of the playback callback lead to from [w]. *)
Inductive callbacks_from {PB : Pedalboard_lib} {SF : Soundfile_lib}
  {SD : Sounddevice_lib} (w : World) : World -> Prop :=
| callbacks_none : callbacks_from w w
| callbacks_more frames status w1 r w2 :
    callbacks_from w w1 ->
    audio_callback frames status w1 = (r, w2) ->
    callbacks_from w w2.

(** Further stand-ins and inputs. *)
Module Fixtures.

(** A duplex driver whose streams always open and close. *)
Definition null_duplex : Sounddevice_duplex_lib :=
  {| Stream := unit;
     new_Stream := fun _ _ _ => Ok tt;
     duplex_start := fun _ => Ok tt;
     duplex_stop := fun _ => Ok tt;
     duplex_close := fun _ => Ok tt |}.

(** Files that cannot be written. *)
Definition read_only_files : Soundfile_lib :=
  {| FileSystem := list (string * (ndarray * Z));
     sf_read := fun path fs =>
       match find (fun entry => String.eqb (fst entry) path) fs with
       | Some entry => Ok (snd entry)
       | None => Raise (RuntimeError "Error opening file")
       end;
     sf_write := fun _ _ _ _ => Raise (RuntimeError "Error opening file") |}.

(** An output driver whose streams refuse to stop. *)
Definition stuck_device : Sounddevice_lib :=
  {| OutputStream := unit;
     new_OutputStream := fun _ _ _ => Ok tt;
     stream_start := fun _ => Ok tt;
     stream_stop := fun _ => Raise (RuntimeError "PortAudio error");
     stream_close := fun _ => Ok tt |}.

(** A pedalboard whose [Reverb] cannot be constructed. *)
Definition no_reverb_lib : Pedalboard_lib :=
  {| Plugin := EffectClass * gmap string Q;
     new_plugin := fun c kwargs =>
       match c with
       | Reverb => Raise (RuntimeError "Reverb is not available")
       | _ => Ok (c, kwargs)
       end;
     call_plugin := fun p x _ => (Ok x, p);
     call_board := fun b x _ => (Ok x, b) |}.

(** The card that [EffectCard] makes for an effect name. *)
Definition default_card (effect_name : string) : EffectCard :=
  match EffectCard_init effect_name with
  | Ok card => card
  | Raise _ => mk_card effect_name ∅
  end.

(** An engine whose board holds one effect that passes audio through. *)
Definition effects_world : World (PB := Doubles.echo_lib) :=
  Doubles.world_of (PB := Doubles.echo_lib) Doubles.limiter [(Gain, ∅)] []
    "in.wav" [].

(** An engine with two accumulated blocks and a disk that refuses writes. *)
Definition read_only_world
  : @World Doubles.echo_lib read_only_files Doubles.null_device :=
  @mk_world Doubles.echo_lib read_only_files Doubles.null_device
    (@mk_processor Doubles.echo_lib 44100 [] Doubles.limiter false
       [Doubles.block_A; Doubles.block_B])
    (FilePlaybackSession_init "in.wav") [] [] (Doubles.block []) [].

(** A mono block and a block of three channels. *)
Definition mono_block : ndarray :=
  {| dtype := float32; ncols := 1; rows := [[0.5%Q]] |}.
Definition wide_block : ndarray :=
  {| dtype := float32; ncols := 3; rows := [[0.1; 0.2; 0.3]%Q] |}.

(** An engine that has accumulated a stereo block and a mono block. *)
Definition mismatch_world : World (PB := Doubles.echo_lib) :=
  Doubles.world_of (PB := Doubles.echo_lib) Doubles.limiter []
    [Doubles.block_A; mono_block] "in.wav" [].

(** A world with a live session on a fresh engine. *)
Definition live_world (running : bool)
  : LiveWorld (PB := Doubles.echo_lib) (DX := null_duplex) :=
  {| live := {| live_stream := None; live_is_running := running |};
     world := Doubles.quiet_world |}.



(** A fresh engine on the pedalboard without [Reverb]. *)
Definition no_reverb_world : World (PB := no_reverb_lib) :=
  Doubles.world_of (PB := no_reverb_lib) Doubles.limiter [] [] "in.wav" [].

End Fixtures.

(** * Properties *)

(** Unfolds the statements of the monad. *)
Ltac run :=
  unfold with_lock, finally, try_except, bind, ret, raise, gets, modify, lift
    in *; cbn beta iota in *.

(** ** [ensure_float32] *)

Lemma ensure_float32_float32 (a : ndarray) :
  dtype a = float32 -> ensure_float32 a = a.
Proof. intros E. unfold ensure_float32. rewrite E. reflexivity. Qed.

Lemma ensure_float32_rows (a : ndarray) : rows (ensure_float32 a) = rows a.
Proof. unfold ensure_float32. destruct (negb _); reflexivity. Qed.

Lemma ensure_float32_ncols (a : ndarray) : ncols (ensure_float32 a) = ncols a.
Proof. unfold ensure_float32. destruct (negb _); reflexivity. Qed.

Section ProcessChunk.

Context {PB : Pedalboard_lib} {SF : Soundfile_lib} {SD : Sounddevice_lib}.

(** [process_chunk] always returns, and touches neither the session, nor the
    accumulated chunks, nor the output block, nor the disk. *)
Lemma process_chunk_returns (audio_chunk : ndarray) (w : World) :
  exists out w',
    process_chunk audio_chunk w = (Ok out, w') /\
    session w' = session w /\
    recorded_chunks (processor w') = recorded_chunks (processor w) /\
    outdata w' = outdata w /\
    disk w' = disk w.
Proof.
  unfold process_chunk, run_board, run_safety_limiter. run.
  destruct (0 <? length (board (processor (emit EvAcquire w))))%nat.
  - destruct (call_board _ _ _) as [[y | e] b]; cbn.
    + destruct (call_plugin _ _ _) as [[z | e] l]; cbn;
        eexists; eexists; (split; [reflexivity |]); cbn; auto.
    + eexists; eexists; (split; [reflexivity |]); cbn; auto.
  - eexists; eexists; (split; [reflexivity |]); cbn; auto.
Qed.

(** C1, as the code has it: with an empty chain [process_chunk] returns its
    input, converted to float32 when it is not float32 already and
    otherwise untouched; nothing but the lock is used, so the safety limiter
    is not run on the block. *)
Theorem process_chunk_empty_chain (audio_chunk : ndarray) (w : World) :
  board (processor w) = [] ->
  process_chunk audio_chunk w
  = (Ok (ensure_float32 audio_chunk), emit EvRelease (emit EvAcquire w))
  /\ rows (ensure_float32 audio_chunk) = rows audio_chunk
  /\ (dtype audio_chunk = float32 -> ensure_float32 audio_chunk = audio_chunk).
Proof.
  intros Hboard. split; [| split].
  - unfold process_chunk. run. cbn. rewrite Hboard. reflexivity.
  - apply ensure_float32_rows.
  - apply ensure_float32_float32.
Qed.

(** C3: [process_chunk] never raises; and when a stage raises [e] (the board,
    or the safety limiter after it), [process_chunk] returns the block it
    was given, as float32, and has printed the error. *)
Theorem process_chunk_catches_stage_failure (audio_chunk : ndarray) (w : World) :
  exists out w',
    process_chunk audio_chunk w = (Ok out, w') /\
    forall e, stage_raises audio_chunk w e ->
      out = ensure_float32 audio_chunk /\
      stdout w' = (stdout w ++ [("Processing error: " +:+ str e)])%list.
Proof.
  unfold stage_raises, process_chunk, run_board, run_safety_limiter. run.
  cbv zeta. cbn [processor emit].
  destruct (board (processor w)) as [| p b] eqn:Hboard.
  - eexists; eexists; split; [reflexivity |].
    intros e [Hne _]. contradiction.
  - cbn -[transpose ensure_float32].
    destruct (call_board _ _ _) as [[y | e1] b1] eqn:Hcall;
      rewrite Hboard in Hcall; cbn.
    + destruct (call_plugin _ _ _) as [[z | e2] l2] eqn:Hlim; cbn.
      * eexists; eexists; split; [reflexivity |].
        intros e [_ Habs]. rewrite Hcall in Habs. cbn in Habs.
        rewrite Hlim in Habs. discriminate.
      * eexists; eexists; split; [reflexivity |].
        intros e [_ Hraise]. rewrite Hcall in Hraise. cbn in Hraise.
        rewrite Hlim in Hraise. injection Hraise as <-.
        split; reflexivity.
    + eexists; eexists; split; [reflexivity |].
      intros e [_ Hraise]. rewrite Hcall in Hraise. cbn in Hraise.
      subst e. split; reflexivity.
Qed.

End ProcessChunk.

(** ** [update_effects] *)

Lemma EFFECT_MAP_size : size EFFECT_MAP = 13.
Proof. vm_compute. reflexivity. Qed.

Lemma built_under_lock_held (mid : list Event) :
  Forall (fun e => held_after true e = true) mid ->
  built_under_lock true (mid ++ [EvRelease]) = true.
Proof.
  induction 1 as [| e mid He _ IH]; [reflexivity |].
  cbn [app built_under_lock]. rewrite He, IH.
  destruct (is_construction e); reflexivity.
Qed.

Lemma construct_events_cons (c : EffectConfig) (cs : list EffectConfig)
  (effect_class : EffectClass) :
  EFFECT_MAP !! name c = Some effect_class ->
  construct_events (c :: cs)
  = EvConstruct effect_class (parameters c) :: construct_events cs.
Proof.
  intros Hcls. unfold construct_events. cbn [omap list_omap].
  rewrite Hcls. reflexivity.
Qed.

Section UpdateEffects.

Context {PB : Pedalboard_lib} {SF : Soundfile_lib} {SD : Sounddevice_lib}.

(** One round of the loop of [update_effects]. *)
Lemma for_each_append_effect_cons (c : EffectConfig) (cs : list EffectConfig)
  (acc : list Plugin) (w : World) :
  for_each (c :: cs) acc append_effect w
  = match EFFECT_MAP !! name c with
    | None => (Raise (KeyError (name c)), w)
    | Some effect_class =>
        let w1 := emit (EvConstruct effect_class (parameters c)) w in
        match new_plugin effect_class (parameters c) with
        | Ok p => for_each cs (acc ++ [p]) append_effect w1
        | Raise e => (Raise e, w1)
        end
    end.
Proof.
  cbn [for_each]. unfold append_effect, getitem, construct. run.
  destruct (EFFECT_MAP !! name c) as [effect_class |]; [| reflexivity].
  cbn. destruct (new_plugin effect_class (parameters c)); reflexivity.
Qed.

(** [update_effects], by the outcome of its loop. *)
Lemma update_effects_unfold (effect_configs : list EffectConfig) (w : World) :
  update_effects effect_configs w
  = match for_each effect_configs [] append_effect
            (emit EvNewBoard (emit EvAcquire w)) with
    | (Ok new_board, w2) =>
        (Ok tt, emit EvRelease (set_board new_board (emit EvSetBoard w2)))
    | (Raise e, w2) => (Raise e, emit EvRelease w2)
    end.
Proof.
  unfold update_effects. run.
  destruct (for_each _ _ _ _) as [[new_board | e] w2]; reflexivity.
Qed.

(** The loop changes nothing but the trace, to which it adds constructor
    calls only. *)
Lemma build_loop_frame (cs : list EffectConfig) :
  forall (acc : list Plugin) (w : World) r w',
    for_each cs acc append_effect w = (r, w') ->
    processor w' = processor w /\ session w' = session w /\
    stdout w' = stdout w /\ outdata w' = outdata w /\ disk w' = disk w /\
    exists evs,
      events w' = (events w ++ evs)%list /\
      Forall (fun e => held_after true e = true) evs.
Proof.
  induction cs as [| c cs IH]; intros acc w r w' Hrun.
  - cbn in Hrun. injection Hrun as <- <-.
    repeat split. exists []. split; [symmetry; apply app_nil_r | constructor].
  - rewrite for_each_append_effect_cons in Hrun.
    destruct (EFFECT_MAP !! name c) as [effect_class |].
    + cbv zeta in Hrun.
      destruct (new_plugin effect_class (parameters c)) as [p | e].
      * apply IH in Hrun as (Hp & Hs & Ho & Hd & Hk & evs & Hev & Hall).
        cbn in *. repeat split; try assumption.
        exists (EvConstruct effect_class (parameters c) :: evs).
        split; [rewrite Hev, <- app_assoc; reflexivity |].
        constructor; [reflexivity | assumption].
      * injection Hrun as <- <-. cbn. repeat split.
        exists [EvConstruct effect_class (parameters c)].
        split; [reflexivity | constructor; [reflexivity | constructor]].
    + injection Hrun as <- <-. repeat split.
      exists []. split; [symmetry; apply app_nil_r | constructor].
Qed.

(** When every class is known and accepts its parameters, the loop returns
    the plugins so constructed, after one constructor call per config. *)
Lemma build_loop_success (cs : list EffectConfig) (plugins : list Plugin) :
  Forall2 built_from cs plugins ->
  forall (acc : list Plugin) (w : World),
  exists w',
    for_each cs acc append_effect w = (Ok (acc ++ plugins)%list, w') /\
    events w' = (events w ++ construct_events cs)%list.
Proof.
  induction 1 as [| c p cs plugins (effect_class & Hcls & Hnew) _ IH];
    intros acc w.
  - exists w. cbn. rewrite !app_nil_r. split; reflexivity.
  - rewrite for_each_append_effect_cons, Hcls. cbv zeta. rewrite Hnew.
    destruct (IH (acc ++ [p])%list
                 (emit (EvConstruct effect_class (parameters c)) w))
      as (w' & Hrun & Hev).
    exists w'. split.
    + rewrite Hrun, <- app_assoc. reflexivity.
    + rewrite Hev, (construct_events_cons _ _ _ Hcls). cbn.
      rewrite <- app_assoc. reflexivity.
Qed.


(** C2, as the code has it: [update_effects] never consults [EFFECTS]. When
    every name is known and every class accepts the parameters of its
    config as they are, in range or not, the call succeeds, the board is
    made of the plugins constructed from exactly those parameters, and
    each constructor has been called with exactly those parameters. *)
Theorem update_effects_passes_parameters_unchanged
  (effect_configs : list EffectConfig) (plugins : list Plugin) (w : World) :
  Forall2 built_from effect_configs plugins ->
  exists w',
    update_effects effect_configs w = (Ok tt, w') /\
    board (processor w') = plugins /\
    events w'
    = events w ++ EvAcquire :: EvNewBoard :: construct_events effect_configs
               ++ [EvSetBoard; EvRelease].
Proof.
  intros Hbuilt. rewrite update_effects_unfold.
  destruct (build_loop_success _ _ Hbuilt []
              (emit EvNewBoard (emit EvAcquire w))) as (w2 & Hrun & Hev).
  rewrite Hrun. eexists. split; [reflexivity |]. cbn. split; [reflexivity |].
  rewrite Hev. cbn. rewrite <- !app_assoc. reflexivity.
Qed.

(** C4, as the code has it: whatever the configs and however the call ends,
    [update_effects] acquires the lock first and releases it last; the new
    board and every effect stage are constructed in between, while the lock
    is held, and so is the swap. *)
Theorem update_effects_builds_under_lock
  (effect_configs : list EffectConfig) (w : World) :
  exists mid,
    events (snd (update_effects effect_configs w))
    = events w ++ EvAcquire :: EvNewBoard :: mid ++ [EvRelease] /\
    Forall (fun e => held_after true e = true) mid /\
    built_under_lock false (EvAcquire :: EvNewBoard :: mid ++ [EvRelease])
    = true.
Proof.
  rewrite update_effects_unfold.
  destruct (for_each _ _ _ _) as [[new_board | e] w2] eqn:Hrun;
    apply build_loop_frame in Hrun as (_ & _ & _ & _ & _ & evs & Hev & Hall).
  - exists (evs ++ [EvSetBoard]).
    assert (Hmid : Forall (fun e => held_after true e = true)
                          (evs ++ [EvSetBoard])).
    { apply Forall_app. split; [assumption |].
      constructor; [reflexivity | constructor]. }
    split; [| split; [exact Hmid |]].
    + cbn. rewrite Hev. cbn. rewrite <- !app_assoc. reflexivity.
    + cbn. apply built_under_lock_held. exact Hmid.
  - exists evs. split; [| split; [exact Hall |]].
    + cbn. rewrite Hev. cbn. rewrite <- !app_assoc. reflexivity.
    + cbn. apply built_under_lock_held. exact Hall.
Qed.


End UpdateEffects.

(** ** [save_recording] *)

Lemma concatenate_onto_spec (rest : list ndarray) :
  forall acc : ndarray,
    Forall (fun b => ncols b = ncols acc) rest ->
    concatenate_onto acc rest
    = Ok {| dtype := fold_left (fun d b => promote d (dtype b)) rest (dtype acc);
            ncols := ncols acc;
            rows := rows acc ++ concat (map rows rest) |}.
Proof.
  induction rest as [| a rest IH]; intros acc Hcols.
  - cbn. rewrite app_nil_r. destruct acc; reflexivity.
  - inversion Hcols as [| ? ? Ha Hrest]; subst.
    cbn [concatenate_onto]. rewrite Ha, Nat.eqb_refl.
    rewrite IH by exact Hrest. cbn. rewrite <- app_assoc. reflexivity.
Qed.

Lemma concatenate_spec (first : ndarray) (rest : list ndarray) :
  Forall (fun b => ncols b = ncols first) rest ->
  concatenate (first :: rest) = Ok (spec_concat first rest).
Proof.
  intros Hcols. cbn [concatenate]. rewrite concatenate_onto_spec by exact Hcols.
  reflexivity.
Qed.

Section SaveRecording.

Context {PB : Pedalboard_lib} {SF : Soundfile_lib} {SD : Sounddevice_lib}.

(** C6: when the accumulated blocks are [first :: rest], of one channel
    count, and writing their concatenation at the sample rate of the
    engine succeeds and leaves the disk [d], [save_recording] returns [True]
    and leaves that disk: it has written exactly [concat(first, rest...)] at
    [samplerate], and nothing else of the world has changed. *)
Theorem save_recording_writes_concatenation (filename : string) (w : World)
  (first : ndarray) (rest : list ndarray) (d : FileSystem) :
  recorded_chunks (processor w) = first :: rest ->
  Forall (fun b => ncols b = ncols first) rest ->
  sf_write filename (spec_concat first rest) (samplerate (processor w)) (disk w)
  = Ok d ->
  save_recording filename w = (Ok true, set_disk d w)
  /\ rows (spec_concat first rest) = rows first ++ concat (map rows rest).
Proof.
  intros Hchunks Hcols Hwrite. split; [| reflexivity].
  unfold save_recording. run. rewrite Hchunks.
  rewrite concatenate_spec by exact Hcols. rewrite Hwrite. reflexivity.
Qed.

(** C7: with nothing accumulated [save_recording] returns [False], without
    raising, and leaves the world, so the disk, as it was: no file is
    written, nothing is printed. *)
Theorem save_recording_nothing_recorded (filename : string) (w : World) :
  recorded_chunks (processor w) = [] ->
  save_recording filename w = (Ok false, w).
Proof.
  intros Hchunks. unfold save_recording. run. rewrite Hchunks. reflexivity.
Qed.

End SaveRecording.

(** ** [load_file] *)

(** [float32_0_8] is a float32 of the binade of 0.8 (a multiple of [2^-24])
    and lies within half a unit in the last place above 0.8. *)
Lemma float32_0_8_nearest :
  (float32_0_8 == 13421773 / 2 ^ 24)%Q /\
  (0.8 < float32_0_8)%Q /\ (float32_0_8 - 0.8 < 1 / 2 ^ 25)%Q.
Proof. repeat split. Qed.

Lemma Qmax_cases (x y : Q) : Qmax x y = x \/ Qmax x y = y.
Proof.
  unfold Qmax, GenericMinMax.gmax. destruct (x ?= y)%Q; auto.
Qed.

Lemma max_from_ge_start (xs : list Q) :
  forall x : Q, (x <= max_from x xs)%Q.
Proof.
  induction xs as [| y ys IH]; intros x; cbn [max_from].
  - apply Qle_refl.
  - eapply Qle_trans; [apply Q.le_max_l | apply IH].
Qed.

(** The maximum is one of the samples. *)
Lemma max_from_In (xs : list Q) :
  forall x : Q, In (max_from x xs) (x :: xs).
Proof.
  induction xs as [| y ys IH]; intros x; cbn [max_from].
  - left. reflexivity.
  - destruct (IH (Qmax x y)) as [Hhead | Htail].
    + rewrite <- Hhead. destruct (Qmax_cases x y) as [-> | ->];
        [left | right; left]; reflexivity.
    + right. right. exact Htail.
Qed.

(** The maximum is above every sample. *)
Lemma max_from_upper (xs : list Q) :
  forall x y : Q, In y (x :: xs) -> (y <= max_from x xs)%Q.
Proof.
  induction xs as [| z zs IH]; intros x y Hin; cbn [max_from].
  - destruct Hin as [<- | []]. apply Qle_refl.
  - destruct Hin as [<- | [<- | Hin]].
    + eapply Qle_trans; [apply Q.le_max_l | apply max_from_ge_start].
    + eapply Qle_trans; [apply Q.le_max_r | apply max_from_ge_start].
    + apply IH. right. exact Hin.
Qed.

Lemma abs_samples (a : ndarray) :
  concat (rows (Np.abs a)) = map Qabs (concat (rows a)).
Proof. cbn. symmetry. apply concat_map. Qed.

Lemma scaled_samples (a : ndarray) (p : Q) :
  concat (rows (mul_scalar (div_scalar a p) 0.5))
  = map (fun x => (x / p * 0.5)%Q) (concat (rows a)).
Proof.
  cbn. rewrite <- !concat_map, map_map. reflexivity.
Qed.

Lemma Qabs_scaled (x p : Q) :
  (0 < p)%Q -> (Qabs (x / p * 0.5) == Qabs x / p * 0.5)%Q.
Proof.
  intros Hp. unfold Qdiv. rewrite !Qabs_Qmult.
  assert (Hinv : (0 < / p)%Q) by (apply Qinv_lt_0_compat; exact Hp).
  rewrite (Qabs_pos (/ p)) by (apply Qlt_le_weak; exact Hinv).
  rewrite (Qabs_pos 0.5) by (unfold Qle; cbn; lia).
  reflexivity.
Qed.

(** Dividing by the peak and halving leaves a peak of one half. *)
Lemma peak_scaled (a : ndarray) (p : Q) :
  Np.max (Np.abs a) = Ok p -> (0 < p)%Q ->
  (peak (mul_scalar (div_scalar a p) 0.5) == 0.5)%Q.
Proof.
  intros Hmax Hp. unfold peak, Np.max in *.
  rewrite abs_samples in *. rewrite scaled_samples.
  destruct (concat (rows a)) as [| x0 xs]; [discriminate |].
  cbn [map] in *. injection Hmax as Hmax.
  set (g := fun x => Qabs (x / p * 0.5)) in *.
  rewrite map_map. change (max_from (g x0) (map g xs) == 0.5)%Q.
  pose proof (max_from_In (map g xs) (g x0)) as Hin.
  pose proof (max_from_upper (map g xs) (g x0)) as Hupper.
  pose proof (max_from_In (map Qabs xs) (Qabs x0)) as Hpin.
  pose proof (max_from_upper (map Qabs xs) (Qabs x0)) as Hpupper.
  rewrite Hmax in Hpin, Hpupper.
  change (g x0 :: map g xs) with (map g (x0 :: xs)) in Hin, Hupper.
  change (Qabs x0 :: map Qabs xs) with (map Qabs (x0 :: xs)) in Hpin, Hpupper.
  apply Qle_antisym.
  - apply in_map_iff in Hin as (y & <- & Hy).
    unfold g. rewrite Qabs_scaled by exact Hp.
    assert (Hle : (Qabs y <= p)%Q) by (apply Hpupper, in_map, Hy).
    assert (Hdiv : (Qabs y / p <= 1)%Q).
    { apply Qle_shift_div_r; [exact Hp | rewrite Qmult_1_l; exact Hle]. }
    set (t := (Qabs y / p)%Q) in *. clearbody t. lra.
  - apply in_map_iff in Hpin as (y & Hyp & Hy).
    eapply Qle_trans; [| apply Hupper, in_map, Hy].
    unfold g. rewrite Qabs_scaled by exact Hp. rewrite Hyp.
    unfold Qdiv. rewrite Qmult_inv_r.
    + unfold Qle; cbn; lia.
    + intros Hzero. rewrite Hzero in Hp. discriminate.
Qed.


Section LoadFile.

Context {PB : Pedalboard_lib} {SF : Soundfile_lib} {SD : Sounddevice_lib}
  {FMT : Format_lib}.

(** [load_file], by cases, when the file is read and has a peak. *)
Lemma load_file_read (w : World) (data : ndarray) (sr : Z) (p : Q) :
  sf_read (audio_file (session w)) (disk w) = Ok (data, sr) ->
  Np.max (Np.abs data) = Ok p ->
  load_file w
  = if Qlt_le_dec 1.0 p then
      (Ok true,
       set_audio_data (Some (mul_scalar (div_scalar data p) 0.5))
         (print ("Warning: Audio file clipped (max: "
                 +:+ format_2f p +:+ "). Normalizing...") w))
    else if Qlt_le_dec float32_0_8 p then
      (Ok true, set_audio_data (Some (mul_scalar (div_scalar data p) 0.5)) w)
    else (Ok true, set_audio_data (Some data) w).
Proof.
  intros Hread Hmax. unfold load_file, read_audio_file. run.
  rewrite Hread. cbn [fst]. rewrite Hmax.
  destruct (Qlt_le_dec 1.0 p); [reflexivity |].
  destruct (Qlt_le_dec float32_0_8 p); reflexivity.
Qed.


End LoadFile.

(** ** The playback callback *)

Lemma setitem_all_same_shape (n c : nat) (value : ndarray) :
  len value = n -> ncols value = c ->
  setitem_all n c value
  = Ok {| dtype := float32; ncols := c; rows := rows value |}.
Proof.
  intros Hlen Hcols. unfold setitem_all.
  rewrite Hlen, Hcols, !Nat.eqb_refl. cbn [orb andb].
  f_equal. f_equal.
  unfold broadcast_row. rewrite Nat.eqb_refl. apply map_id.
Qed.

Lemma setitem_all_zeros (frames : nat) :
  setitem_all frames 2 (zeros frames 2) = Ok (silence frames).
Proof.
  rewrite setitem_all_same_shape;
    [reflexivity | apply repeat_length | reflexivity].
Qed.


(** One statement of a sequence. *)
Lemma bind_run {S A B} (c : M S A) (k : A -> M S B) (s : S) :
  bind c k s
  = match c s with
    | (Ok a, s') => k a s'
    | (Raise e, s') => (Raise e, s')
    end.
Proof. reflexivity. Qed.

(** Runs the statements whose outcome is known. *)
Ltac mrun :=
  repeat first
    [ progress rewrite bind_run
    | progress unfold gets, modify, ret, lift, raise
    | progress cbn beta iota ].

(** Reads the fields of an updated world. *)
Ltac fields :=
  cbn [session processor stdout events outdata disk
       set_board set_safety_limiter set_is_active set_recorded_chunks
       set_stream set_is_running set_audio_data set_current_frame
       set_outdata set_disk print emit with_session with_processor
       audio_file stream is_running audio_data current_frame
       samplerate board safety_limiter is_active recorded_chunks fst snd]
    in *.

Section Playback.

Context {PB : Pedalboard_lib} {SF : Soundfile_lib} {SD : Sounddevice_lib}
  {FMT : Format_lib}.

Lemma report_status_session (status : option string) (w : World) :
  fst (report_status status w) = Ok tt /\
  session (snd (report_status status w)) = session w /\
  processor (snd (report_status status w)) = processor w /\
  outdata (snd (report_status status w)) = outdata w.
Proof. destruct status; cbn; auto. Qed.

(** The callback when nothing is left to play or the session is stopped. *)
Lemma audio_callback_idle (frames : nat) (status : option string) (w : World)
  (data : ndarray) :
  audio_data (session w) = Some data ->
  is_running (session w) = false \/ len data <= current_frame (session w) ->
  audio_callback frames status w
  = (Ok tt,
     (if (len data <=? current_frame (session w))%nat
      then set_is_running false else fun w => w)
       (set_outdata (silence frames) (snd (report_status status w)))).
Proof.
  intros Hdata Hidle.
  destruct (report_status_session status w) as (Hok & Hsess & _).
  unfold audio_callback, finish_if_exhausted, len_audio_data, assign_outdata.
  rewrite bind_run.
  destruct (report_status status w) as [r w0]. cbn [fst snd] in *. subst r.
  assert (Hmore :
    (if is_running (session w)
     then (current_frame (session w) <? len data)%nat else false) = false).
  { destruct Hidle as [-> | Hend]; [reflexivity |].
    destruct (is_running (session w)); [| reflexivity].
    apply Nat.ltb_ge. exact Hend. }
  mrun. rewrite Hsess.
  destruct (is_running (session w)); mrun; rewrite ?Hsess, ?Hdata; mrun;
    rewrite ?Hmore; mrun; rewrite setitem_all_zeros; mrun; fields;
    rewrite Hsess, Hdata; mrun;
    destruct (len data <=? current_frame (session w))%nat; reflexivity.
Qed.

(** The callback when the session runs and frames are left: by the outcome
    of [process_chunk] on the window, then of the write to the output. *)
Lemma audio_callback_window (frames : nat) (status : option string) (w : World)
  (data processed : ndarray) (w1 : World) :
  is_running (session w) = true ->
  audio_data (session w) = Some data ->
  current_frame (session w) < len data ->
  let cur := current_frame (session w) in
  let end_frame := Nat.min (cur + frames) (len data) in
  let chunk := slice data cur end_frame in
  let window :=
    if (len chunk <? frames)%nat then pad chunk (frames - len chunk)
    else chunk in
  process_chunk window (snd (report_status status w)) = (Ok processed, w1) ->
  audio_callback frames status w
  = let w2 := set_recorded_chunks
                (recorded_chunks (processor w1)
                 ++ [slice processed 0 (end_frame - cur)]) w1 in
    match setitem_all frames 2 processed with
    | Ok out =>
        (Ok tt,
         (if (len data <=? end_frame)%nat
          then set_is_running false else fun w => w)
           (set_current_frame end_frame (set_outdata out w2)))
    | Raise e => (Raise e, w2)
    end.
Proof.
  intros Hrun Hdata Hmore cur end_frame chunk window Hproc.
  destruct (report_status_session status w) as (Hok & Hsess & _).
  destruct (process_chunk_returns window (snd (report_status status w)))
    as (out & w1' & Hproc' & Hsess1 & _).
  rewrite Hproc in Hproc'. injection Hproc' as <- <-.
  rewrite Hsess in Hsess1.
  unfold audio_callback, finish_if_exhausted, len_audio_data, assign_outdata,
    slice_audio_data.
  rewrite bind_run.
  destruct (report_status status w) as [r w0]. cbn [fst snd] in *. subst r.
  mrun. rewrite Hsess, Hrun. mrun. rewrite Hsess, Hdata. mrun.
  apply Nat.ltb_lt in Hmore. rewrite Hmore. mrun.
  repeat (progress (rewrite ?Hsess, ?Hdata; mrun)).
  fold cur. fold end_frame. fold chunk. fold window.
  rewrite Hproc. mrun. rewrite Hsess1. fold cur.
  destruct (setitem_all frames 2 processed) as [o | e]; mrun;
    [| reflexivity].
  fields. rewrite Hsess1. fields. rewrite Hdata. mrun.
  destruct (len data <=? end_frame)%nat; reflexivity.
Qed.


(** One invocation of the callback keeps the cursor within the buffer,
    never moves it back, and past the end of the buffer only writes
    silence. *)
Lemma audio_callback_step (frames : nat) (status : option string)
  (w : World) (data : ndarray) r w' :
  cursor_in_range w data ->
  audio_callback frames status w = (r, w') ->
  cursor_in_range w' data /\
  current_frame (session w) <= current_frame (session w') /\
  (current_frame (session w) = len data ->
     r = Ok tt /\ outdata w' = silence frames /\
     recorded_chunks (processor w') = recorded_chunks (processor w) /\
     current_frame (session w') = len data).
Proof.
  intros (Hdata & Hle & Hdone) Hcb.
  destruct (report_status_session status w) as (_ & Hsess0 & Hproc0 & _).
  destruct (is_running (session w)) eqn:Hrun.
  - destruct (Nat.lt_ge_cases (current_frame (session w)) (len data))
      as [Hmore | Hend].
    + set (end_frame := Nat.min (current_frame (session w) + frames) (len data)).
      destruct (process_chunk_returns
        (let chunk := slice data (current_frame (session w)) end_frame in
         if (len chunk <? frames)%nat then pad chunk (frames - len chunk)
         else chunk) (snd (report_status status w)))
        as (processed & w1 & Hproc & Hsess1 & _).
      rewrite Hsess0 in Hsess1.
      rewrite (audio_callback_window frames status w data processed w1
                 Hrun Hdata Hmore Hproc) in Hcb.
      cbv zeta in Hcb. fold end_frame in Hcb.
      destruct (setitem_all frames 2 processed) as [o | e].
      * assert (Hef : current_frame (session w) <= end_frame <= len data)
          by (unfold end_frame; lia).
        destruct (len data <=? end_frame)%nat eqn:Hfin;
          injection Hcb as <- <-; unfold cursor_in_range; fields;
          rewrite ?Hsess1, ?Hdata.
        -- split; [split; [reflexivity | split; [lia | reflexivity]] |].
           split; [lia | intros; lia].
        -- apply Nat.leb_gt in Hfin.
           split; [split; [reflexivity | split; [lia | intros; lia]] |].
           split; [lia | intros; lia].
      * injection Hcb as <- <-. unfold cursor_in_range. fields.
        rewrite Hsess1.
        split; [split; [exact Hdata | split; [lia | intros; lia]] |].
        split; [lia | intros; lia].
    + assert (Heq : current_frame (session w) = len data) by lia.
      rewrite (audio_callback_idle frames status w data Hdata
                 (or_intror Hend)) in Hcb.
      apply Nat.leb_le in Hend. rewrite Hend in Hcb.
      injection Hcb as <- <-. unfold cursor_in_range. fields.
      rewrite Hsess0, Hproc0.
      repeat split; auto.
  - rewrite (audio_callback_idle frames status w data Hdata
               (or_introl Hrun)) in Hcb.
    destruct (len data <=? current_frame (session w))%nat;
      injection Hcb as <- <-; unfold cursor_in_range; fields;
      rewrite Hsess0, ?Hproc0; repeat split; auto.
Qed.

(** A file that [load_file] accepts leaves a buffer of at least one frame:
    an empty buffer has no maximum. *)
Lemma load_file_loaded (w w1 : World) :
  load_file w = (Ok true, w1) ->
  exists data, audio_data (session w1) = Some data /\ 0 < len data.
Proof.
  unfold load_file, read_audio_file, try_except. mrun.
  destruct (sf_read _ _) as [[data sr] | e]; mrun; [| discriminate].
  cbn [fst]. unfold Np.max. rewrite abs_samples.
  destruct (concat (rows data)) as [| x xs] eqn:Hflat; mrun; [discriminate |].
  assert (Hlen : 0 < len data).
  { unfold len. destruct (rows data); [discriminate | cbn; lia]. }
  cbn [map].
  destruct (Qlt_le_dec 1.0 _); [| destruct (Qlt_le_dec float32_0_8 _)]; mrun;
    intros Hload; injection Hload as <-; fields; eexists;
    (split; [reflexivity |]); unfold len; cbn [rows mul_scalar div_scalar
      map_samples]; rewrite ?length_map; exact Hlen.
Qed.

Lemma start_cursor (w0 w : World) :
  start w0 = (Ok true, w) -> exists data, cursor_in_range w data.
Proof.
  unfold start. rewrite bind_run.
  destruct (load_file w0) as [[[|] | e] w1] eqn:Hload; cbn [negb];
    [| discriminate | discriminate].
  destruct (load_file_loaded _ _ Hload) as (data & Hdata & Hlen).
  mrun. fields.
  destruct (new_OutputStream _ _ _) as [s | e]; mrun; [| discriminate].
  destruct (stream_start s) as [[] | e]; mrun; [| discriminate].
  intros Hstart. injection Hstart as <-. exists data.
  unfold cursor_in_range. fields.
  split; [exact Hdata | split; [lia | intros; lia]].
Qed.

Lemma update_effects_session (effect_configs : list EffectConfig)
  (w : World) r w' :
  update_effects effect_configs w = (r, w') -> session w' = session w.
Proof.
  rewrite update_effects_unfold.
  destruct (for_each _ _ _ _) as [[new_board | e] w2] eqn:Hloop;
    apply build_loop_frame in Hloop as (_ & Hsess & _);
    intros Hrun; injection Hrun as <- <-; fields; exact Hsess.
Qed.

Lemma stop_cursor (w : World) (data : ndarray) r w' :
  cursor_in_range w data -> stop w = (r, w') -> cursor_in_range w' data.
Proof.
  intros (Hdata & Hle & _). unfold stop, cursor_in_range. mrun. fields.
  destruct (stream (session w)) as [s |]; mrun.
  - destruct (stream_stop s) as [[] | e]; mrun;
      [destruct (stream_close s) as [[] | e]; mrun |];
      intros Hstop; injection Hstop as <- <-; fields; auto.
  - intros Hstop; injection Hstop as <- <-; fields; auto.
Qed.

(** Every world of a playback session has a loaded buffer with the cursor
    within it. *)
Lemma playing_cursor (w : World) :
  playing w -> exists data, cursor_in_range w data.
Proof.
  induction 1 as [w0 w Hstart
                 | frames status w r w' _ (data & IH) Hcb
                 | effect_configs w r w' _ (data & IH) Hupd
                 | w r w' _ (data & IH) Hstop].
  - eapply start_cursor, Hstart.
  - exists data. eapply audio_callback_step; eassumption.
  - exists data. unfold cursor_in_range in *.
    rewrite (update_effects_session _ _ _ _ Hupd). exact IH.
  - exists data. eapply stop_cursor; eassumption.
Qed.

(** C10: in every world of a playback session there is a loaded buffer and
    the cursor is between [0] and its length. An invocation of the callback
    never moves the cursor back and leaves it within the buffer; a cursor
    at the end of the buffer comes with [is_running = False], before and
    after; and an invocation that finds the cursor at the end returns
    after writing silence to the output, appends nothing to the
    accumulated chunks and leaves the cursor at the end. *)
Theorem playback_cursor_invariant (w : World) :
  playing w ->
  exists data,
    audio_data (session w) = Some data /\
    0 <= current_frame (session w) <= len data /\
    (current_frame (session w) = len data -> is_running (session w) = false) /\
    forall frames status,
    exists r w',
      audio_callback frames status w = (r, w') /\
      playing w' /\
      audio_data (session w') = Some data /\
      current_frame (session w) <= current_frame (session w') <= len data /\
      (current_frame (session w') = len data ->
         is_running (session w') = false) /\
      (current_frame (session w) = len data ->
         r = Ok tt /\ outdata w' = silence frames /\
         recorded_chunks (processor w') = recorded_chunks (processor w) /\
         current_frame (session w') = len data).
Proof.
  intros Hplaying.
  destruct (playing_cursor w Hplaying) as (data & Hrange).
  exists data. pose proof Hrange as (Hdata & Hle & Hdone).
  split; [exact Hdata |]. split; [lia |]. split; [exact Hdone |].
  intros frames status.
  destruct (audio_callback frames status w) as [r w'] eqn:Hcb.
  exists r, w'. split; [reflexivity |].
  split; [eapply playing_callback; eassumption |].
  destruct (audio_callback_step frames status w data r w' Hrange Hcb)
    as ((Hdata' & Hle' & Hdone') & Hmono & Hsilent).
  auto.
Qed.

End Playback.

(** * The theorems at concrete inputs *)

Section Concrete.

Import Doubles.

Local Existing Instance echo_lib.
Local Existing Instance assoc_files.
Local Existing Instance null_device.
Local Existing Instance plain_format.

(** C1 at a clipping block on a fresh engine. *)
Lemma process_chunk_empty_chain_witness :
  process_chunk loud_block quiet_world
  = (Ok loud_block, emit EvRelease (emit EvAcquire quiet_world)).
Proof.
  assert (Hboard : board (processor quiet_world) = []) by reflexivity.
  destruct (process_chunk_empty_chain loud_block quiet_world Hboard)
    as (Hrun & _ & Hsame).
  rewrite <- (Hsame eq_refl) at 2. exact Hrun.
Defined.

(** C1 fails as stated: on an engine with an empty chain, a block of peak
    amplitude 2.0 comes out as it went in, with peak 2.0, which is more
    than 7 dB above the threshold of -1 dB of the safety limiter. *)
Lemma empty_chain_output_exceeds_threshold :
  board (processor quiet_world) = [] /\
  fst (process_chunk loud_block quiet_world) = Ok loud_block /\
  (peak loud_block == 2)%Q /\
  safety_limiter_kwargs !! "threshold_db" = Some (-1.0)%Q /\
  above_dB (peak loud_block) (-1.0 + 7)%Q.
Proof.
  split; [reflexivity |]. split; [reflexivity |].
  split; [vm_compute; reflexivity |]. split; [reflexivity |].
  vm_compute. reflexivity.
Qed.

(** C2 at a gain of 100 dB. *)
Lemma update_effects_passes_parameters_unchanged_witness :
  exists w',
    update_effects [gain_100] quiet_world = (Ok tt, w') /\
    board (processor w') = [(Gain, parameters gain_100)].
Proof.
  assert (Hbuilt : Forall2 built_from [gain_100] [(Gain, parameters gain_100)]).
  { constructor; [| constructor]. exists Gain. split; reflexivity. }
  destruct (update_effects_passes_parameters_unchanged (PB := echo_lib)
              [gain_100] [(Gain, parameters gain_100)] quiet_world Hbuilt)
    as (w' & Hrun & Hboard & _).
  exists w'. split; [exact Hrun | exact Hboard].
Defined.

(** C2 fails as stated: [EFFECTS] declares the range [-60, 60] for the
    gain, clamping 100 would give 60, yet the constructor of [Gain] is called
    with 100 and the board holds the effect made from 100. *)
Lemma update_effects_does_not_clamp :
  EFFECTS !! "Gain" ≫= (fun ranges => ranges !! "gain_db")
  = Some (-60.0, 60.0, 0.0)%Q /\
  parameters gain_100 !! "gain_db" = Some 100.0%Q /\
  spec_clamp_parameters "Gain" (parameters gain_100) !! "gain_db"
  = Some 60.0%Q /\
  exists w',
    update_effects [gain_100] quiet_world = (Ok tt, w') /\
    events w'
    = [EvAcquire; EvNewBoard; EvConstruct Gain (parameters gain_100);
       EvSetBoard; EvRelease] /\
    board (processor w') = [(Gain, parameters gain_100)] /\
    board (processor w')
    <> [(Gain, spec_clamp_parameters "Gain" (parameters gain_100))].
Proof.
  split; [vm_compute; reflexivity |]. split; [vm_compute; reflexivity |].
  split; [vm_compute; reflexivity |].
  eexists. split; [vm_compute; reflexivity |].
  split; [vm_compute; reflexivity |]. split; [vm_compute; reflexivity |].
  intros Heq. apply (f_equal (fun b =>
    match b with
    | [(_, kwargs)] => kwargs !! "gain_db"
    | _ => None
    end)) in Heq.
  vm_compute in Heq. discriminate.
Qed.

(** C3 at a board whose processing raises. *)
Lemma process_chunk_catches_stage_failure_witness :
  stage_raises (PB := faulty_lib) loud_block faulty_world
    (RuntimeError "plugin failed") /\
  exists w',
    process_chunk (PB := faulty_lib) loud_block faulty_world
    = (Ok loud_block, w') /\
    stdout w' = ["Processing error: plugin failed"].
Proof.
  assert (Hraise : stage_raises (PB := faulty_lib) loud_block faulty_world
                     (RuntimeError "plugin failed")).
  { split; [discriminate | reflexivity]. }
  split; [exact Hraise |].
  destruct (process_chunk_catches_stage_failure (PB := faulty_lib)
              loud_block faulty_world) as (out & w' & Hrun & Hfail).
  destruct (Hfail _ Hraise) as [Hout Hprinted].
  exists w'. split; [rewrite Hrun, Hout; reflexivity | exact Hprinted].
Defined.

(** C4 fails as stated: for one gain stage, the effect is constructed
    between the acquisition and the release of the lock. *)
Lemma update_effects_builds_inside_lock :
  events (snd (update_effects [gain_100] quiet_world))
  = [EvAcquire; EvNewBoard; EvConstruct Gain (parameters gain_100);
     EvSetBoard; EvRelease] /\
  built_outside_lock false (events (snd (update_effects [gain_100] quiet_world)))
  = false.
Proof. split; vm_compute; reflexivity. Qed.


(** The three files of the specification: peak 1.5 and peak 0.9 load to
    peak 0.5, peak 0.3 loads unchanged. *)
Example load_file_peaks :
  let loaded data :=
    audio_data (session (snd (load_file (world_with_file data)))) in
  (peak file_peak_1_5 == 1.5)%Q /\
  (peak file_peak_0_9 == 0.9)%Q /\
  (peak file_peak_0_3 == 0.3)%Q /\
  (exists a, loaded file_peak_1_5 = Some a /\ (peak a == 0.5)%Q) /\
  (exists a, loaded file_peak_0_9 = Some a /\ (peak a == 0.5)%Q) /\
  loaded file_peak_0_3 = Some file_peak_0_3.
Proof.
  cbv zeta. repeat split; try (vm_compute; reflexivity);
    eexists; (split; [vm_compute; reflexivity |]); vm_compute; reflexivity.
Qed.

(** C6 at three accumulated blocks. *)
Lemma save_recording_writes_concatenation_witness :
  save_recording "out.wav" recorded_world
  = (Ok true,
     set_disk
       [("out.wav",
         (block (rows block_A ++ rows block_B ++ rows block_C), 44100%Z))]
       recorded_world).
Proof.
  assert (Hcols : Forall (fun b => ncols b = ncols block_A) [block_B; block_C])
    by (repeat constructor).
  apply (save_recording_writes_concatenation "out.wav" recorded_world
           block_A [block_B; block_C]
           [("out.wav", (spec_concat block_A [block_B; block_C], 44100%Z))]
           eq_refl Hcols eq_refl).
Defined.

(** C7 at a fresh engine. *)
Lemma save_recording_nothing_recorded_witness :
  save_recording "out.wav" quiet_world = (Ok false, quiet_world).
Proof.
  apply (save_recording_nothing_recorded "out.wav" quiet_world eq_refl).
Defined.


(** Why C8 names the configs before the unknown one: a stage whose
    constructor raises comes first, and its exception is the one raised. *)
Example update_effects_earlier_failure :
  fst (update_effects (PB := faulty_lib) [gain_bogus; fuzz] faulty_world)
  = Raise (TypeError "__init__(): incompatible constructor arguments").
Proof. vm_compute. reflexivity. Qed.


(** C10 at a session just started. *)
Lemma playback_cursor_invariant_witness :
  playing started_world /\
  exists data,
    audio_data (session started_world) = Some data /\
    0 <= current_frame (session started_world) <= len data.
Proof.
  assert (Hplaying : playing started_world).
  { apply (playing_start (world_with_file file_peak_0_3_long)).
    vm_compute. reflexivity. }
  split; [exact Hplaying |].
  destruct (playback_cursor_invariant started_world Hplaying)
    as (data & Hdata & Hrange & _).
  exists data. split; assumption.
Defined.

End Concrete.

(** * Further properties of the engine *)

(** ** [process_chunk] with effects *)

Section ProcessChunkMore.

Context {PB : Pedalboard_lib} {SF : Soundfile_lib} {SD : Sounddevice_lib}.

(** X1: with a chain that is not empty and stages that do not raise,
    [process_chunk] gives the transposed block to the board, gives the
    transposed output of the board to the safety limiter, and returns what
    the limiter returns; the board and the limiter keep the state that
    their calls left. *)
Theorem process_chunk_limits_board_output (audio_chunk : ndarray) (w : World)
  (y z : ndarray) (b : list Plugin) (l : Plugin) :
  board (processor w) <> [] ->
  call_board (board (processor w)) (transpose (ensure_float32 audio_chunk))
    (samplerate (processor w)) = (Ok y, b) ->
  call_plugin (safety_limiter (processor w)) (transpose y)
    (samplerate (processor w)) = (Ok z, l) ->
  process_chunk audio_chunk w
  = (Ok z,
     emit EvRelease (set_safety_limiter l (set_board b (emit EvAcquire w)))).
Proof.
  intros Hboard Hcall Hlim. unfold process_chunk, run_board, run_safety_limiter.
  run. cbv zeta. cbn [processor emit].
  destruct (board (processor w)) as [| p ps] eqn:Hb; [contradiction |].
  cbn [length Nat.ltb Nat.leb]. cbn [processor emit]. rewrite Hb, Hcall.
  cbn [processor set_board with_processor samplerate safety_limiter emit].
  rewrite Hlim. reflexivity.
Qed.

(** X2: whatever the block and the chain, [process_chunk] takes the lock
    once and gives it back, and leaves the sample rate, the accumulated
    chunks, the session, the output block and the disk alone. It prints
    exactly one line, the error, when a stage raises, and nothing
    otherwise; a stage raises [e] exactly when [stage_failure] is [e]. *)
Theorem process_chunk_lock_and_frame (audio_chunk : ndarray) (w : World) :
  let w' := snd (process_chunk audio_chunk w) in
  events w' = events w ++ [EvAcquire; EvRelease] /\
  samplerate (processor w') = samplerate (processor w) /\
  is_active (processor w') = is_active (processor w) /\
  recorded_chunks (processor w') = recorded_chunks (processor w) /\
  session w' = session w /\ outdata w' = outdata w /\ disk w' = disk w /\
  stdout w'
  = stdout w ++ match stage_failure audio_chunk w with
                | Some e => ["Processing error: " +:+ str e]
                | None => []
                end /\
  forall e, stage_raises audio_chunk w e <-> stage_failure audio_chunk w = Some e.
Proof.
  unfold stage_raises, stage_failure, process_chunk, run_board,
    run_safety_limiter. run.
  cbv zeta. cbn [processor emit].
  destruct (board (processor w)) as [| p ps] eqn:Hb.
  - cbn. rewrite <- app_assoc, app_nil_r.
    repeat (split; [reflexivity |]).
    intros e. split; [intros [Hne _]; contradiction | discriminate].
  - cbn [length Nat.ltb Nat.leb]. cbn [processor emit]. rewrite Hb.
    destruct (call_board _ _ _) as [[y | e1] b1] eqn:Hcall.
    + cbn [processor set_board with_processor samplerate safety_limiter emit
           fst].
      destruct (call_plugin _ _ _) as [[z | e2] l2] eqn:Hlim; cbn;
        rewrite <- app_assoc, ?app_nil_r;
        repeat (split; [reflexivity |]); intros e; split.
      * intros [_ Habs]. discriminate.
      * discriminate.
      * intros [_ Hraise]. injection Hraise as <-. reflexivity.
      * intros Hsome. injection Hsome as <-.
        split; [discriminate | reflexivity].
    + cbn. rewrite <- app_assoc.
      repeat (split; [reflexivity |]). intros e. split.
      * intros [_ <-]. reflexivity.
      * intros Hsome. injection Hsome as <-.
        split; [discriminate | reflexivity].
Qed.

End ProcessChunkMore.

(** ** [update_effects], success and failure *)

Section UpdateEffectsMore.

Context {PB : Pedalboard_lib} {SF : Soundfile_lib} {SD : Sounddevice_lib}.

(** What the loop of [update_effects] returns, and why it raises. *)
Lemma build_loop_outcome (cs : list EffectConfig) :
  forall (acc : list Plugin) (w : World) r w',
    for_each cs acc append_effect w = (r, w') ->
    match r with
    | Ok new_board =>
        exists plugins,
          new_board = acc ++ plugins /\ Forall2 built_from cs plugins
    | Raise e =>
        exists c, In c cs /\
          ((EFFECT_MAP !! name c = None /\ e = KeyError (name c)) \/
           exists effect_class,
             EFFECT_MAP !! name c = Some effect_class /\
             new_plugin effect_class (parameters c) = Raise e)
    end.
Proof.
  induction cs as [| c cs IH]; intros acc w r w' Hrun.
  - cbn in Hrun. injection Hrun as <- <-. exists [].
    split; [symmetry; apply app_nil_r | constructor].
  - rewrite for_each_append_effect_cons in Hrun.
    destruct (EFFECT_MAP !! name c) as [effect_class |] eqn:Hcls.
    + cbv zeta in Hrun.
      destruct (new_plugin effect_class (parameters c)) as [p | e] eqn:Hnew.
      * apply IH in Hrun. destruct r as [new_board | e].
        -- destruct Hrun as (plugins & -> & Hbuilt). exists (p :: plugins).
           split; [rewrite <- app_assoc; reflexivity |].
           constructor; [exists effect_class; auto | exact Hbuilt].
        -- destruct Hrun as (c' & Hin & Hwhy). exists c'.
           split; [right; exact Hin | exact Hwhy].
      * injection Hrun as <- <-. exists c. split; [left; reflexivity |].
        right. exists effect_class. auto.
    + injection Hrun as <- <-. exists c. split; [left; reflexivity |].
      left. auto.
Qed.

(** X3: [update_effects] replaces the chain as a whole or not at all. When
    it returns, the board holds, in order, one plugin per config, each made
    by the class of that name from the parameters of that config, whatever
    the board held before; when it raises, the processor is as it was.
    Either way it leaves the sample rate, the safety limiter, the
    accumulated chunks, the session, the printed lines, the output block
    and the disk alone. *)
Theorem update_effects_all_or_nothing
  (effect_configs : list EffectConfig) (w : World) :
  let r := fst (update_effects effect_configs w) in
  let w' := snd (update_effects effect_configs w) in
  session w' = session w /\ stdout w' = stdout w /\
  outdata w' = outdata w /\ disk w' = disk w /\
  match r with
  | Ok _ =>
      Forall2 built_from effect_configs (board (processor w')) /\
      samplerate (processor w') = samplerate (processor w) /\
      safety_limiter (processor w') = safety_limiter (processor w) /\
      is_active (processor w') = is_active (processor w) /\
      recorded_chunks (processor w') = recorded_chunks (processor w)
  | Raise _ => processor w' = processor w
  end.
Proof.
  cbv zeta. rewrite update_effects_unfold.
  destruct (for_each _ _ _ _) as [[new_board | e] w2] eqn:Hrun;
    pose proof (build_loop_frame _ _ _ _ _ Hrun)
      as (Hproc & Hsess & Hout & Hdata & Hdisk & _);
    apply build_loop_outcome in Hrun; cbn in *.
  - destruct Hrun as (plugins & -> & Hbuilt). rewrite Hproc. cbn.
    repeat split; auto.
  - repeat split; auto.
Qed.

(** X4: [update_effects] raises for two reasons only: the name of a config
    is not a key of [EFFECT_MAP], and the exception is the [KeyError] of
    that name; or the class of a config raises when it is called with the
    parameters of that config, and the exception is that one. *)
Theorem update_effects_failure_reasons
  (effect_configs : list EffectConfig) (w : World) (e : exn) :
  fst (update_effects effect_configs w) = Raise e ->
  exists c, In c effect_configs /\
    ((EFFECT_MAP !! name c = None /\ e = KeyError (name c)) \/
     exists effect_class,
       EFFECT_MAP !! name c = Some effect_class /\
       new_plugin effect_class (parameters c) = Raise e).
Proof.
  rewrite update_effects_unfold.
  destruct (for_each _ _ _ _) as [[new_board | e'] w2] eqn:Hrun;
    cbn; intros Hraise; [discriminate |].
  injection Hraise as ->. apply build_loop_outcome in Hrun. exact Hrun.
Qed.

(** X5: an update with no config empties the chain, and the engine then
    passes every block through: [process_chunk] returns its input (as
    float32), the safety limiter is not run. *)
Theorem update_effects_empty_is_pass_through (audio_chunk : ndarray) (w : World) :
  exists w1 w2,
    update_effects [] w = (Ok tt, w1) /\
    board (processor w1) = [] /\
    process_chunk audio_chunk w1 = (Ok (ensure_float32 audio_chunk), w2) /\
    safety_limiter (processor w2) = safety_limiter (processor w).
Proof.
  eexists. eexists. split; [reflexivity |]. split; [reflexivity |].
  split.
  - unfold process_chunk. run. reflexivity.
  - reflexivity.
Qed.

End UpdateEffectsMore.

(** ** [save_recording], the failures *)

Lemma concatenate_onto_mismatch (rest : list ndarray) :
  forall acc : ndarray,
    Exists (fun b => ncols b <> ncols acc) rest ->
    concatenate_onto acc rest
    = Raise (ValueError
        "all the input array dimensions except for the concatenation axis must match exactly").
Proof.
  induction rest as [| a rest IH]; intros acc Hbad.
  - inversion Hbad.
  - cbn [concatenate_onto].
    destruct (Nat.eqb (ncols a) (ncols acc)) eqn:Hcols; [| reflexivity].
    apply Nat.eqb_eq in Hcols. apply IH. cbn [ncols].
    inversion Hbad as [? ? Hhead | ? ? Htail]; subst;
      [contradiction | exact Htail].
Qed.

Section SaveRecordingMore.

Context {PB : Pedalboard_lib} {SF : Soundfile_lib} {SD : Sounddevice_lib}.

(** X6: [save_recording] never raises and never changes the processor, so
    the accumulated chunks are still there for another try; when it returns
    [False] the disk is as it was, and it returns [True] only when there
    was something accumulated. *)
Theorem save_recording_never_raises (filename : string) (w : World) :
  exists (saved : bool) (w' : World),
    save_recording filename w = (Ok saved, w') /\
    processor w' = processor w /\ session w' = session w /\
    outdata w' = outdata w /\
    if saved then recorded_chunks (processor w) <> []
    else disk w' = disk w.
Proof.
  unfold save_recording. run.
  destruct (recorded_chunks (processor w)) as [| first rest] eqn:Hchunks.
  - exists false, w. auto.
  - destruct (concatenate (first :: rest)) as [audio | e]; cbn.
    + destruct (sf_write _ _ _ _) as [d | e]; cbn.
      * eexists true, _. split; [reflexivity |]. cbn.
        repeat split; auto; try discriminate.
      * eexists false, _. split; [reflexivity |]. cbn. auto.
    + eexists false, _. split; [reflexivity |]. cbn. auto.
Qed.

(** X7: when writing the concatenation of the accumulated blocks raises,
    [save_recording] returns [False], and all it has done is print the
    error. *)
Theorem save_recording_write_failure (filename : string) (w : World)
  (first : ndarray) (rest : list ndarray) (e : exn) :
  recorded_chunks (processor w) = first :: rest ->
  Forall (fun b => ncols b = ncols first) rest ->
  sf_write filename (spec_concat first rest) (samplerate (processor w)) (disk w)
  = Raise e ->
  save_recording filename w = (Ok false, print ("Save error: " +:+ str e) w).
Proof.
  intros Hchunks Hcols Hwrite. unfold save_recording. run. rewrite Hchunks.
  rewrite concatenate_spec by exact Hcols. rewrite Hwrite. reflexivity.
Qed.

(** X8: when an accumulated block has another channel count than the first
    one, the blocks cannot be joined: [save_recording] returns [False]
    without calling [sf.write], and prints the error of [np.concatenate]. *)
Theorem save_recording_channel_mismatch (filename : string) (w : World)
  (first : ndarray) (rest : list ndarray) :
  recorded_chunks (processor w) = first :: rest ->
  Exists (fun b => ncols b <> ncols first) rest ->
  save_recording filename w
  = (Ok false,
     print ("Save error: " +:+
            "all the input array dimensions except for the concatenation axis must match exactly")
       w).
Proof.
  intros Hchunks Hbad. unfold save_recording. run. rewrite Hchunks.
  cbn [concatenate]. rewrite concatenate_onto_mismatch by exact Hbad.
  reflexivity.
Qed.

End SaveRecordingMore.

(** ** [load_file], the failures and the headroom *)

Section LoadFileMore.

Context {PB : Pedalboard_lib} {SF : Soundfile_lib} {SD : Sounddevice_lib}
  {FMT : Format_lib}.

(** X9: [load_file] never raises. It changes nothing but the loaded buffer
    and the printed lines; when it returns [False] the buffer of the
    session is as it was and one line, the error, has been printed. *)
Theorem load_file_never_raises (w : World) :
  exists (loaded : bool) (w' : World),
    load_file w = (Ok loaded, w') /\
    processor w' = processor w /\ disk w' = disk w /\
    outdata w' = outdata w /\ events w' = events w /\
    is_running (session w') = is_running (session w) /\
    current_frame (session w') = current_frame (session w) /\
    stream (session w') = stream (session w) /\
    if loaded then audio_data (session w') <> None
    else audio_data (session w') = audio_data (session w) /\
         exists e, stdout w' = stdout w ++ ["Load error: " +:+ str e].
Proof.
  unfold load_file, read_audio_file, try_except. mrun.
  destruct (sf_read _ _) as [[data sr] | e]; mrun.
  - cbn [fst]. destruct (Np.max (Np.abs data)) as [p | e]; mrun.
    + destruct (Qlt_le_dec 1.0 p); [| destruct (Qlt_le_dec float32_0_8 p)];
        mrun;
        eexists true, _; (split; [reflexivity |]); fields;
        repeat split; discriminate.
    + eexists false, _. split; [reflexivity |]. fields.
      repeat split. exists e. reflexivity.
  - eexists false, _. split; [reflexivity |]. fields.
    repeat split. exists e. reflexivity.
Qed.

(** X10: a file of finite samples that [load_file] accepts is loaded with
    the shape it was read with, has at least one frame, and its peak
    absolute amplitude afterwards is at most [float32_0_8], the float32
    that the code compares the peak with (a little above 0.8), however
    loud the file was. *)
Theorem load_file_leaves_headroom (w w' : World) (data : ndarray) (sr : Z) :
  sf_read (audio_file (session w)) (disk w) = Ok (data, sr) ->
  load_file w = (Ok true, w') ->
  exists loaded,
    audio_data (session w') = Some loaded /\
    len loaded = len data /\ ncols loaded = ncols data /\
    dtype loaded = dtype data /\
    0 < len loaded /\
    (peak loaded <= float32_0_8)%Q.
Proof.
  intros Hread Hload.
  destruct (load_file_loaded w w' Hload) as (loaded & Hloaded & Hlen).
  destruct (Np.max (Np.abs data)) as [p | e] eqn:Hmax.
  - rewrite (load_file_read w data sr p Hread Hmax) in Hload.
    exists loaded. split; [exact Hloaded |].
    destruct (Qlt_le_dec 1.0 p) as [Hclip | Hnoclip];
      [| destruct (Qlt_le_dec float32_0_8 p) as [Hloud | Hquiet]];
      injection Hload as <-; fields; injection Hloaded as <-;
      unfold float32_0_8 in *.
    + repeat split; try (unfold len; cbn; rewrite !length_map; reflexivity).
      * unfold len in *. cbn in *. rewrite ?length_map in *. exact Hlen.
      * rewrite (peak_scaled data p Hmax) by lra. lra.
    + repeat split; try (unfold len; cbn; rewrite !length_map; reflexivity).
      * unfold len in *. cbn in *. rewrite ?length_map in *. exact Hlen.
      * rewrite (peak_scaled data p Hmax) by lra. lra.
    + repeat split; try exact Hlen.
      unfold peak. rewrite Hmax. exact Hquiet.
  - revert Hload. unfold load_file, read_audio_file, try_except. mrun.
    rewrite Hread. mrun. cbn [fst]. rewrite Hmax. mrun. discriminate.
Qed.

(** X11: a file that is read but holds no sample (no frame, or no channel)
    is refused: [load_file] returns [False], leaves the buffer of the
    session alone and prints the error of [np.max]. *)
Theorem load_file_empty_file (w : World) (data : ndarray) (sr : Z) :
  sf_read (audio_file (session w)) (disk w) = Ok (data, sr) ->
  concat (rows data) = [] ->
  load_file w
  = (Ok false,
     print ("Load error: " +:+
            "zero-size array to reduction operation maximum which has no identity")
       w).
Proof.
  intros Hread Hempty. unfold load_file, read_audio_file, try_except. mrun.
  rewrite Hread. mrun. cbn [fst]. unfold Np.max. rewrite abs_samples, Hempty.
  reflexivity.
Qed.

End LoadFileMore.

(** ** Starting and stopping a playback session *)

Section StartStop.

Context {PB : Pedalboard_lib} {SF : Soundfile_lib} {SD : Sounddevice_lib}
  {FMT : Format_lib}.

(** What [stop] leaves, however it ends. *)
Lemma stop_frame (w : World) :
  let w' := snd (stop w) in
  is_running (session w') = false /\
  audio_data (session w') = audio_data (session w) /\
  current_frame (session w') = current_frame (session w) /\
  stream (session w') = stream (session w) /\
  recorded_chunks (processor w') = recorded_chunks (processor w) /\
  board (processor w') = board (processor w) /\
  stdout w' = stdout w /\ disk w' = disk w /\ outdata w' = outdata w /\
  match fst (stop w) with
  | Ok _ => is_active (processor w') = false
  | Raise _ => is_active (processor w') = is_active (processor w)
  end.
Proof.
  unfold stop. mrun. fields.
  destruct (stream (session w)) as [s |] eqn:Hs; mrun.
  - destruct (stream_stop s) as [[] | e]; mrun;
      [destruct (stream_close s) as [[] | e]; mrun |];
      fields; rewrite ?Hs; repeat split; reflexivity.
  - fields. rewrite ?Hs. repeat split; reflexivity.
Qed.

(** X12: when the file of the session cannot be read, [start] returns
    [False] and has only printed the error: the session is not marked
    running, the engine is not marked active, the chunks accumulated before
    are not cleared, no stream is opened. *)
Theorem start_unreadable_file (w : World) (e : exn) :
  sf_read (audio_file (session w)) (disk w) = Raise e ->
  start w = (Ok false, print ("Load error: " +:+ str e) w).
Proof.
  intros Hread. unfold start, load_file, read_audio_file, try_except. mrun.
  rewrite Hread. mrun. reflexivity.
Qed.

(** X13: once the file is loaded, [start] marks the session running and the
    engine active, clears the accumulated chunks and puts the cursor at
    the start of the loaded buffer, before it opens the stream: these hold
    however [start] ends, so also when opening or starting the stream
    raises. When [start] returns, it returns [True] and the session has a
    stream. The chain is not touched. *)
Theorem start_after_load (w w1 : World) :
  load_file w = (Ok true, w1) ->
  let w' := snd (start w) in
  is_running (session w') = true /\
  is_active (processor w') = true /\
  recorded_chunks (processor w') = [] /\
  current_frame (session w') = 0 /\
  audio_data (session w') = audio_data (session w1) /\
  board (processor w') = board (processor w) /\
  match fst (start w) with
  | Ok started => started = true /\ stream (session w') <> None
  | Raise _ => True
  end.
Proof.
  intros Hload.
  assert (Hproc : processor w1 = processor w).
  { revert Hload. unfold load_file, read_audio_file, try_except. mrun.
    destruct (sf_read _ _) as [[data sr] | e]; mrun; [| discriminate].
    cbn [fst]. destruct (Np.max (Np.abs data)) as [p | e]; mrun;
      [| discriminate].
    destruct (Qlt_le_dec 1.0 p); [| destruct (Qlt_le_dec float32_0_8 p)];
      mrun;
      intros Hload; injection Hload as <-; reflexivity. }
  unfold start. rewrite bind_run, Hload. cbn [negb]. mrun. fields.
  rewrite Hproc.
  destruct (new_OutputStream _ _ _) as [s | e]; mrun.
  - destruct (stream_start s) as [[] | e]; mrun; fields; rewrite ?Hproc;
      repeat split; try reflexivity; try discriminate.
  - fields. rewrite ?Hproc. repeat split; reflexivity.
Qed.

(** X14: [stop] always leaves the session not running, and leaves the
    loaded buffer, the cursor, the accumulated chunks and the chain alone;
    the engine is marked inactive when [stop] returns, and keeps its mark
    when stopping or closing the stream raises. *)
Theorem stop_clears_running (w : World) :
  let w' := snd (stop w) in
  is_running (session w') = false /\
  audio_data (session w') = audio_data (session w) /\
  current_frame (session w') = current_frame (session w) /\
  recorded_chunks (processor w') = recorded_chunks (processor w) /\
  board (processor w') = board (processor w) /\
  match fst (stop w) with
  | Ok _ => is_active (processor w') = false
  | Raise _ => is_active (processor w') = is_active (processor w)
  end.
Proof.
  pose proof (stop_frame w) as
    (Hrun & Hdata & Hcur & _ & Hrec & Hboard & _ & _ & _ & Hactive).
  cbv zeta in *. repeat split; assumption.
Qed.

(** X15: after [stop], however it ended, an invocation of the callback of a
    loaded session writes silence to the output, appends nothing to the
    accumulated chunks and does not move the cursor. *)
Theorem audio_callback_after_stop (frames : nat) (status : option string)
  (w : World) (data : ndarray) :
  audio_data (session w) = Some data ->
  exists w2,
    audio_callback frames status (snd (stop w)) = (Ok tt, w2) /\
    outdata w2 = silence frames /\
    recorded_chunks (processor w2) = recorded_chunks (processor w) /\
    current_frame (session w2) = current_frame (session w) /\
    is_running (session w2) = false.
Proof.
  intros Hdata.
  pose proof (stop_frame w) as
    (Hrun & Hdata' & Hcur & _ & Hrec & _). cbv zeta in *.
  rewrite Hdata in Hdata'.
  rewrite (audio_callback_idle frames status (snd (stop w)) data Hdata'
             (or_introl Hrun)).
  destruct (report_status_session status (snd (stop w)))
    as (_ & Hsess & Hproc & _).
  eexists. split; [reflexivity |].
  destruct (len data <=? current_frame (session (snd (stop w))))%nat; fields;
    rewrite ?Hsess, ?Hproc; auto.
Qed.

End StartStop.

(** ** The playback callback, window by window *)

Lemma firstn_min_length {A} (n : nat) (l : list A) :
  firstn (Nat.min n (length l)) l = firstn n l.
Proof.
  destruct (Nat.le_gt_cases n (length l)) as [Hle | Hgt].
  - rewrite Nat.min_l by exact Hle. reflexivity.
  - rewrite Nat.min_r by lia. rewrite firstn_all, firstn_all2 by lia.
    reflexivity.
Qed.

Lemma firstn_then_more {A} (a b : nat) (l : list A) :
  firstn a l ++ firstn b (skipn a l) = firstn (a + b) l.
Proof.
  revert l. induction a as [| a IH]; intros l; [reflexivity |].
  destruct l as [| x l]; cbn.
  - rewrite firstn_nil. reflexivity.
  - rewrite IH. reflexivity.
Qed.

Lemma firstn_then_valid {A} (a b : nat) (l : list A) :
  firstn a l ++ firstn b (skipn a l)
  = firstn (a + length (firstn b (skipn a l))) l.
Proof.
  rewrite length_firstn, <- firstn_then_more, firstn_min_length.
  reflexivity.
Qed.

(** The rows of the next window of the buffer, before padding. *)
Lemma rows_slice_window (data : ndarray) (cur frames : nat) :
  rows (slice data cur (Nat.min (cur + frames) (len data)))
  = firstn frames (skipn cur (rows data)).
Proof.
  unfold slice, len. cbn [rows].
  rewrite <- (firstn_min_length frames (skipn cur (rows data))).
  rewrite length_skipn. f_equal. lia.
Qed.

Section PlaybackMore.

Context {PB : Pedalboard_lib} {SF : Soundfile_lib} {SD : Sounddevice_lib}
  {FMT : Format_lib}.

Lemma process_chunk_no_effects (audio_chunk : ndarray) (w : World) :
  board (processor w) = [] ->
  process_chunk audio_chunk w
  = (Ok (ensure_float32 audio_chunk), emit EvRelease (emit EvAcquire w)).
Proof.
  intros Hboard. unfold process_chunk. run. cbn. rewrite Hboard. reflexivity.
Qed.

(** One invocation on a running session with an empty chain and a stereo
    buffer. *)
Lemma audio_callback_dry (frames : nat) (status : option string) (w : World)
  (data : ndarray) :
  board (processor w) = [] ->
  is_running (session w) = true ->
  audio_data (session w) = Some data ->
  ncols data = 2 ->
  current_frame (session w) < len data ->
  let cur := current_frame (session w) in
  let valid := firstn frames (skipn cur (rows data)) in
  exists w',
    audio_callback frames status w = (Ok tt, w') /\
    board (processor w') = [] /\
    audio_data (session w') = Some data /\
    current_frame (session w') = cur + length valid /\
    current_frame (session w') <= len data /\
    recorded_rows w' = recorded_rows w ++ valid /\
    rows (outdata w') = valid ++ repeat [0%Q; 0%Q] (frames - length valid) /\
    is_running (session w') = negb (len data <=? cur + length valid)%nat.
Proof.
  intros Hboard Hrun Hdata Hcols Hmore cur valid.
  destruct (report_status_session status w) as (_ & Hsess0 & Hproc0 & _).
  set (end_frame := Nat.min (cur + frames) (len data)).
  set (chunk := slice data cur end_frame).
  set (window := if (len chunk <? frames)%nat
                 then pad chunk (frames - len chunk) else chunk).
  assert (Hchunk : rows chunk = valid) by apply rows_slice_window.
  assert (Hvalid : length valid = Nat.min frames (len data - cur)).
  { unfold valid. rewrite length_firstn, length_skipn. reflexivity. }
  assert (Hend : end_frame = cur + length valid)
    by (rewrite Hvalid; unfold end_frame, cur in *; lia).
  assert (Hlenchunk : len chunk = length valid)
    by (unfold len; rewrite Hchunk; reflexivity).
  assert (Hwindow : rows window
                    = valid ++ repeat [0%Q; 0%Q] (frames - length valid)).
  { unfold window. rewrite Hlenchunk.
    destruct (length valid <? frames)%nat eqn:Hshort.
    - unfold pad. cbn [rows]. rewrite Hchunk.
      unfold chunk, slice. cbn [ncols]. rewrite Hcols. reflexivity.
    - apply Nat.ltb_ge in Hshort.
      replace (frames - length valid) with 0 by lia.
      cbn. rewrite app_nil_r. exact Hchunk. }
  assert (Hncols : ncols window = 2).
  { unfold window. destruct (len chunk <? frames)%nat; exact Hcols. }
  assert (Hlenwin : len window = frames).
  { unfold len. rewrite Hwindow, length_app, repeat_length. lia. }
  assert (Hb0 : board (processor (snd (report_status status w))) = [])
    by (rewrite Hproc0; exact Hboard).
  pose proof (audio_callback_window frames status w data
                (ensure_float32 window) _ Hrun Hdata Hmore
                (process_chunk_no_effects window _ Hb0)) as Hcb.
  cbv zeta in Hcb. fold cur in Hcb. fold end_frame in Hcb.
  rewrite (setitem_all_same_shape frames 2 (ensure_float32 window)) in Hcb;
    [| unfold len; rewrite ensure_float32_rows; exact Hlenwin
     | rewrite ensure_float32_ncols; exact Hncols].
  eexists. split; [exact Hcb |].
  assert (Hprefix : rows (slice (ensure_float32 window) 0 (end_frame - cur))
                    = valid).
  { unfold slice. cbn [rows skipn]. rewrite ensure_float32_rows, Hwindow.
    replace (end_frame - cur - 0) with (length valid) by lia.
    change (skipn 0 (valid ++ repeat [0%Q; 0%Q] (frames - length valid)))
      with (valid ++ repeat [0%Q; 0%Q] (frames - length valid)).
    rewrite firstn_app, Nat.sub_diag, firstn_all. cbn.
    apply app_nil_r. }
  destruct (len data <=? end_frame)%nat eqn:Hfin; fields;
    (split; [exact Hb0 |]); (split; [rewrite Hsess0; exact Hdata |]);
    (split; [exact Hend |]); (split; [unfold end_frame; lia |]);
    (split; [| split]);
    try (unfold recorded_rows; fields; rewrite Hproc0, map_app, concat_app;
         cbn [map concat]; rewrite Hprefix, app_nil_r; reflexivity);
    try (cbn [rows]; rewrite ensure_float32_rows; exact Hwindow);
    rewrite <- Hend, Hfin, ?Hsess0, ?Hrun; reflexivity.
Qed.

(** X16: on a running session with an empty chain and a stereo buffer, an
    invocation of the callback plays the file as it is: the output block
    holds the next [frames] frames of the buffer, followed by silence when
    fewer are left; exactly those frames of the buffer are appended to the
    accumulated audio; the cursor moves past them; and the session stays
    running exactly when frames are left. *)
Theorem playback_without_effects_step (frames : nat) (status : option string)
  (w : World) (data : ndarray) :
  board (processor w) = [] ->
  is_running (session w) = true ->
  audio_data (session w) = Some data ->
  ncols data = 2 ->
  current_frame (session w) < len data ->
  let cur := current_frame (session w) in
  let valid := firstn frames (skipn cur (rows data)) in
  exists w',
    audio_callback frames status w = (Ok tt, w') /\
    rows (outdata w') = valid ++ repeat [0%Q; 0%Q] (frames - length valid) /\
    recorded_rows w' = recorded_rows w ++ valid /\
    current_frame (session w') = cur + length valid /\
    is_running (session w') = (current_frame (session w') <? len data)%nat.
Proof.
  intros Hboard Hrun Hdata Hcols Hmore cur valid.
  destruct (audio_callback_dry frames status w data
              Hboard Hrun Hdata Hcols Hmore)
    as (w' & Hcb & _ & _ & Hcur & Hle & Hrec & Hout & Hstill).
  exists w'. repeat split; try assumption.
  rewrite Hstill, Hcur. fold cur. fold valid.
  destruct (len data <=? cur + length valid)%nat eqn:Hfin; cbn [negb];
    symmetry.
  - apply Nat.ltb_ge, Nat.leb_le, Hfin.
  - apply Nat.ltb_lt, Nat.leb_gt, Hfin.
Qed.

(** X17: with an empty chain and a stereo buffer, what is accumulated is the
    part of the file that has been played: if the accumulated frames are
    the first [current_frame] frames of the buffer (as they are after
    [start]), they still are after any number of invocations of the
    callback, with any frame counts; so when the cursor reaches the end,
    the accumulated audio is the whole file, frame for frame. *)
Theorem playback_without_effects_records_file (w w' : World) (data : ndarray) :
  board (processor w) = [] ->
  audio_data (session w) = Some data ->
  ncols data = 2 ->
  current_frame (session w) <= len data ->
  recorded_rows w = firstn (current_frame (session w)) (rows data) ->
  callbacks_from w w' ->
  recorded_rows w' = firstn (current_frame (session w')) (rows data) /\
  current_frame (session w) <= current_frame (session w') <= len data /\
  (current_frame (session w') = len data -> recorded_rows w' = rows data).
Proof.
  intros Hboard Hdata Hcols Hle Hrec Hcalls.
  assert (Hinv :
    board (processor w') = [] /\ audio_data (session w') = Some data /\
    recorded_rows w' = firstn (current_frame (session w')) (rows data) /\
    current_frame (session w) <= current_frame (session w') <= len data).
  { induction Hcalls as [| frames status w1 r w2 _ IH Hcb].
    - repeat split; auto.
    - destruct IH as (Hb1 & Hd1 & Hr1 & Hc1).
      destruct (report_status_session status w1) as (_ & Hsess0 & Hproc0 & _).
      destruct (is_running (session w1)) eqn:Hrun1;
        [destruct (Nat.lt_ge_cases (current_frame (session w1)) (len data))
           as [Hmore | Hend] |].
      + destruct (audio_callback_dry frames status w1 data
                    Hb1 Hrun1 Hd1 Hcols Hmore)
          as (w2' & Hcb' & Hb2 & Hd2 & Hcur & Hle2 & Hrec2 & _).
        rewrite Hcb in Hcb'. injection Hcb' as _ <-.
        repeat split; try assumption; try lia.
        rewrite Hrec2, Hr1, Hcur. apply firstn_then_valid.
      + rewrite (audio_callback_idle frames status w1 data Hd1
                   (or_intror Hend)) in Hcb.
        injection Hcb as _ <-.
        destruct (len data <=? current_frame (session w1))%nat;
          unfold recorded_rows in *; fields;
          rewrite ?Hsess0, ?Hproc0; repeat split; auto; lia.
      + rewrite (audio_callback_idle frames status w1 data Hd1
                   (or_introl Hrun1)) in Hcb.
        injection Hcb as _ <-.
        destruct (len data <=? current_frame (session w1))%nat;
          unfold recorded_rows in *; fields;
          rewrite ?Hsess0, ?Hproc0; repeat split; auto; lia. }
  destruct Hinv as (_ & _ & Hrec' & Hrange).
  split; [exact Hrec' |]. split; [exact Hrange |].
  intros Hfull. rewrite Hrec', Hfull. apply firstn_all.
Qed.

(** X28: on a running session with [frames] frames or more left, the window
    given to [process_chunk] is the next [frames] frames of the buffer,
    without padding; when the processed window has the shape of the output
    block, the callback writes it to the output, appends all of it to the
    accumulated chunks, moves the cursor by [frames], and ends the session
    exactly when the cursor has reached the end of the buffer. *)
Theorem audio_callback_full_window (frames : nat) (status : option string)
  (w : World) (data processed : ndarray) (w1 : World) :
  is_running (session w) = true ->
  audio_data (session w) = Some data ->
  0 < frames ->
  current_frame (session w) + frames <= len data ->
  let cur := current_frame (session w) in
  let window := slice data cur (cur + frames) in
  process_chunk window (snd (report_status status w)) = (Ok processed, w1) ->
  len processed = frames ->
  ncols processed = 2 ->
  rows window = firstn frames (skipn cur (rows data)) /\
  len window = frames /\
  exists w',
    audio_callback frames status w = (Ok tt, w') /\
    rows (outdata w') = rows processed /\
    recorded_chunks (processor w')
    = recorded_chunks (processor w) ++ [slice processed 0 frames] /\
    rows (slice processed 0 frames) = rows processed /\
    current_frame (session w') = cur + frames /\
    is_running (session w') = (cur + frames <? len data)%nat.
Proof.
  intros Hrun Hdata Hpos Hfits cur window Hproc Hlen Hcols.
  assert (Hmore : current_frame (session w) < len data) by lia.
  assert (Hend : Nat.min (cur + frames) (len data) = cur + frames)
    by (apply Nat.min_l; unfold cur; lia).
  assert (Hrows : rows window = firstn frames (skipn cur (rows data))).
  { unfold window. rewrite <- Hend. apply rows_slice_window. }
  assert (Hwin : len window = frames).
  { unfold len. rewrite Hrows, length_firstn, length_skipn.
    fold (len data). unfold cur. lia. }
  split; [exact Hrows |]. split; [exact Hwin |].
  destruct (report_status_session status w) as (_ & _ & Hproc0 & _).
  destruct (process_chunk_returns window (snd (report_status status w)))
    as (out & w1' & Hproc' & _ & Hrec & _).
  rewrite Hproc in Hproc'. injection Hproc' as <- <-.
  rewrite Hproc0 in Hrec.
  pose proof (audio_callback_window frames status w data processed w1
                Hrun Hdata Hmore) as Hcb.
  cbv zeta in Hcb. fold cur in Hcb. rewrite Hend in Hcb. fold window in Hcb.
  rewrite Hwin, Nat.ltb_irrefl in Hcb. specialize (Hcb Hproc).
  rewrite (setitem_all_same_shape frames 2 processed Hlen Hcols) in Hcb.
  replace (cur + frames - cur) with frames in Hcb by lia.
  eexists. split; [exact Hcb |].
  assert (Hall : rows (slice processed 0 frames) = rows processed).
  { unfold slice. cbn [rows]. rewrite Nat.sub_0_r.
    change (skipn 0 (rows processed)) with (rows processed).
    apply firstn_all2. fold (len processed). lia. }
  destruct (report_status_session status w) as (_ & Hsess0 & _).
  destruct (process_chunk_returns window (snd (report_status status w)))
    as (out & w1' & Hproc' & Hsess1 & _).
  rewrite Hproc in Hproc'. injection Hproc' as <- <-.
  destruct (len data <=? cur + frames)%nat eqn:Hfin; fields;
    rewrite ?Hrec, ?Hsess1, ?Hsess0, ?Hrun;
    (repeat split; try reflexivity; try exact Hall); symmetry.
  - apply Nat.ltb_ge, Nat.leb_le, Hfin.
  - apply Nat.ltb_lt, Nat.leb_gt, Hfin.
Qed.

End PlaybackMore.

(** ** The live recording session *)

Lemma setitem_all_zeros_like (frames : nat) (indata : ndarray) :
  len indata = frames -> ncols indata = 2 ->
  setitem_all frames 2 (zeros_like indata) = Ok (silence frames).
Proof.
  intros Hlen Hcols. rewrite setitem_all_same_shape.
  - unfold zeros_like, silence. cbn [rows]. rewrite Hlen, Hcols. reflexivity.
  - unfold zeros_like, len. cbn [rows]. rewrite repeat_length. exact Hlen.
  - exact Hcols.
Qed.

Section LiveMore.

Context {PB : Pedalboard_lib} {SF : Soundfile_lib} {SD : Sounddevice_lib}
  {DX : Sounddevice_duplex_lib}.

(** The live callback on a running session, by the outcome of
    [process_chunk] and of the write to the output. *)
Lemma live_audio_callback_running (indata : ndarray) (frames : nat)
  (status : option string) (lw : LiveWorld) (processed : ndarray) (w1 : World) :
  live_is_running (live lw) = true ->
  process_chunk indata (snd (report_status status (world lw)))
  = (Ok processed, w1) ->
  live_audio_callback indata frames status lw
  = match setitem_all frames 2 processed with
    | Ok out =>
        (Ok tt, {| live := live lw;
                   world := set_outdata out (append_recorded processed w1) |})
    | Raise e =>
        (Raise e, {| live := live lw; world := append_recorded processed w1 |})
    end.
Proof.
  intros Hrun Hproc.
  destruct (report_status_session status (world lw)) as (Hok & _).
  unfold live_audio_callback, in_world, assign_outdata. mrun.
  destruct (report_status status (world lw)) as [r w0]. cbn [fst snd] in *.
  subst r. mrun. cbn [live world]. rewrite Hrun. mrun. cbn [live world].
  rewrite Hproc. mrun. cbn [live world].
  destruct (setitem_all frames 2 processed); mrun; reflexivity.
Qed.

(** X18: when the live session is not running, the callback only writes
    silence to the output block: the block that came in is not processed
    (the lock is not taken), and nothing is appended to the accumulated
    chunks. *)
Theorem live_audio_callback_stopped (indata : ndarray) (frames : nat)
  (status : option string) (lw : LiveWorld) :
  live_is_running (live lw) = false ->
  len indata = frames ->
  ncols indata = 2 ->
  exists lw',
    live_audio_callback indata frames status lw = (Ok tt, lw') /\
    outdata (world lw') = silence frames /\
    processor (world lw') = processor (world lw) /\
    events (world lw') = events (world lw) /\
    live lw' = live lw.
Proof.
  intros Hrun Hlen Hcols.
  destruct (report_status_session status (world lw))
    as (Hok & _ & Hproc0 & _).
  assert (Hev : events (snd (report_status status (world lw)))
                = events (world lw)) by (destruct status; reflexivity).
  unfold live_audio_callback, in_world, assign_outdata. mrun.
  destruct (report_status status (world lw)) as [r w0]. cbn [fst snd] in *.
  subst r. mrun. cbn [live world]. rewrite Hrun. mrun. cbn [live world].
  rewrite (setitem_all_zeros_like frames indata Hlen Hcols). mrun.
  eexists. split; [reflexivity |]. cbn [live world]. fields. auto.
Qed.

(** X19: when the live session runs and the processed block has the shape
    of the output block, the callback appends the whole processed block to
    the accumulated chunks and writes it to the output: what is heard is
    what is recorded. *)
Theorem live_audio_callback_monitors (indata : ndarray) (frames : nat)
  (status : option string) (lw : LiveWorld) (processed : ndarray) (w1 : World) :
  live_is_running (live lw) = true ->
  process_chunk indata (snd (report_status status (world lw)))
  = (Ok processed, w1) ->
  len processed = frames ->
  ncols processed = 2 ->
  exists lw',
    live_audio_callback indata frames status lw = (Ok tt, lw') /\
    rows (outdata (world lw')) = rows processed /\
    recorded_chunks (processor (world lw'))
    = recorded_chunks (processor (world lw)) ++ [processed] /\
    live lw' = live lw.
Proof.
  intros Hrun Hproc Hlen Hcols.
  rewrite (live_audio_callback_running indata frames status lw processed w1
             Hrun Hproc).
  rewrite (setitem_all_same_shape frames 2 processed Hlen Hcols).
  destruct (report_status_session status (world lw)) as (_ & _ & Hproc0 & _).
  destruct (process_chunk_returns indata (snd (report_status status (world lw))))
    as (out & w1' & Hproc' & _ & Hrec & _).
  rewrite Hproc in Hproc'. injection Hproc' as <- <-. rewrite Hproc0 in Hrec.
  eexists. split; [reflexivity |]. cbn [live world]. unfold append_recorded.
  fields. rewrite Hrec. auto.
Qed.

(** X20: the live callback appends the processed block before it writes it
    to the output: when the block cannot be written to the output block
    (its shape does not fit), the callback raises the error of the
    assignment, the output block is left as it was, and the processed block
    has been appended to the accumulated chunks all the same. *)
Theorem live_audio_callback_records_before_output (indata : ndarray)
  (frames : nat) (status : option string) (lw : LiveWorld)
  (processed : ndarray) (w1 : World) (e : exn) :
  live_is_running (live lw) = true ->
  process_chunk indata (snd (report_status status (world lw)))
  = (Ok processed, w1) ->
  setitem_all frames 2 processed = Raise e ->
  exists lw',
    live_audio_callback indata frames status lw = (Raise e, lw') /\
    recorded_chunks (processor (world lw'))
    = recorded_chunks (processor (world lw)) ++ [processed] /\
    outdata (world lw') = outdata (world lw).
Proof.
  intros Hrun Hproc Hset.
  rewrite (live_audio_callback_running indata frames status lw processed w1
             Hrun Hproc), Hset.
  destruct (report_status_session status (world lw))
    as (_ & _ & Hproc0 & Hout0).
  destruct (process_chunk_returns indata (snd (report_status status (world lw))))
    as (out & w1' & Hproc' & _ & Hrec & Hout & _).
  rewrite Hproc in Hproc'. injection Hproc' as <- <-.
  rewrite Hproc0 in Hrec. rewrite Hout0 in Hout.
  eexists. split; [reflexivity |]. cbn [live world]. unfold append_recorded.
  fields. rewrite Hrec. auto.
Qed.

(** X21: with an empty chain, live monitoring is the identity: a float32
    stereo block of [frames] frames that comes in is written to the output
    as it is and appended to the accumulated chunks as it is. *)
Theorem live_audio_callback_without_effects (indata : ndarray) (frames : nat)
  (status : option string) (lw : LiveWorld) :
  live_is_running (live lw) = true ->
  board (processor (world lw)) = [] ->
  dtype indata = float32 ->
  len indata = frames ->
  ncols indata = 2 ->
  exists lw',
    live_audio_callback indata frames status lw = (Ok tt, lw') /\
    outdata (world lw') = indata /\
    recorded_chunks (processor (world lw'))
    = recorded_chunks (processor (world lw)) ++ [indata].
Proof.
  intros Hrun Hboard Hdtype Hlen Hcols.
  destruct (report_status_session status (world lw)) as (_ & _ & Hproc0 & _).
  assert (Hproc : process_chunk indata (snd (report_status status (world lw)))
                  = (Ok indata,
                     emit EvRelease
                       (emit EvAcquire (snd (report_status status (world lw)))))).
  { unfold process_chunk. run. cbn. rewrite Hproc0, Hboard.
    rewrite (ensure_float32_float32 indata Hdtype). reflexivity. }
  rewrite (live_audio_callback_running indata frames status lw indata _
             Hrun Hproc).
  rewrite (setitem_all_same_shape frames 2 indata Hlen Hcols).
  eexists. split; [reflexivity |]. cbn [live world]. unfold append_recorded.
  fields. rewrite Hproc0. split; [| reflexivity].
  destruct indata as [d c r]. cbn in *. subst. reflexivity.
Qed.

(** X22: [LiveRecordingSession.start] marks the session running and the
    engine active and clears the accumulated chunks before it opens the
    stream: these hold however [start] ends, so also when the device
    cannot be opened; the chain is not touched; and when [start] returns,
    the session has a stream. *)
Theorem live_start_sets_flags_first (lw : LiveWorld) :
  let lw' := snd (live_start lw) in
  live_is_running (live lw') = true /\
  is_active (processor (world lw')) = true /\
  recorded_chunks (processor (world lw')) = [] /\
  board (processor (world lw')) = board (processor (world lw)) /\
  match fst (live_start lw) with
  | Ok _ => live_stream (live lw') <> None
  | Raise _ => True
  end.
Proof.
  unfold live_start, in_world. mrun.
  cbn [live world set_live_is_running]. fields.
  destruct (new_Stream _ _ _) as [s | e]; mrun.
  - destruct (duplex_start s) as [[] | e]; mrun;
      cbn [live world set_live_is_running set_live_stream live_is_running
           live_stream]; fields; repeat split; try reflexivity; discriminate.
  - cbn [live world set_live_is_running live_is_running]. fields.
    repeat split; reflexivity.
Qed.

(** X23: [LiveRecordingSession.stop] always leaves the session not running
    and keeps the accumulated chunks and the chain; the engine is marked
    inactive when [stop] returns, and keeps its mark when stopping or
    closing the stream raises. *)
Theorem live_stop_clears_running (lw : LiveWorld) :
  let lw' := snd (live_stop lw) in
  live_is_running (live lw') = false /\
  recorded_chunks (processor (world lw'))
  = recorded_chunks (processor (world lw)) /\
  board (processor (world lw')) = board (processor (world lw)) /\
  match fst (live_stop lw) with
  | Ok _ => is_active (processor (world lw')) = false
  | Raise _ =>
      is_active (processor (world lw')) = is_active (processor (world lw))
  end.
Proof.
  unfold live_stop, in_world. mrun.
  cbn [live world set_live_is_running live_stream].
  destruct (live_stream (live lw)) as [s |]; mrun.
  - destruct (duplex_stop s) as [[] | e]; mrun;
      [destruct (duplex_close s) as [[] | e]; mrun |];
      cbn [live world set_live_is_running live_is_running]; fields;
      repeat split; reflexivity.
  - cbn [live world set_live_is_running live_is_running]. fields.
    repeat split; reflexivity.
Qed.

End LiveMore.

(** ** The effect table and the effect cards *)

Lemma EFFECTS_table_ok :
  forallb (fun entry => forallb (fun r => range_ok (snd r)) (map_to_list (snd entry)))
          (map_to_list EFFECTS) = true.
Proof. vm_compute. exact eq_refl. Qed.

Lemma EFFECTS_range_ok (effect_name param : string)
  (ranges : gmap string (Q * Q * Q)) (range : Q * Q * Q) :
  EFFECTS !! effect_name = Some ranges ->
  ranges !! param = Some range ->
  range_ok range = true.
Proof.
  intros Hname Hparam.
  apply elem_of_map_to_list, list_elem_of_In in Hname.
  apply elem_of_map_to_list, list_elem_of_In in Hparam.
  pose proof (proj1 (forallb_forall _ _) EFFECTS_table_ok _ Hname) as Hranges.
  cbn [snd] in Hranges.
  exact (proj1 (forallb_forall _ _) Hranges _ Hparam).
Qed.

Lemma EFFECTS_dom : dom EFFECTS = dom EFFECT_MAP.
Proof. vm_compute. exact eq_refl. Qed.


(** X24: in [EFFECTS], for every effect and every parameter, the default
    lies within the declared range, [min <= default <= max]: a card made
    with the defaults never holds a value outside the range of its
    slider. *)
Theorem EFFECTS_defaults_in_range (effect_name param : string)
  (ranges : gmap string (Q * Q * Q)) (lo hi d : Q) :
  EFFECTS !! effect_name = Some ranges ->
  ranges !! param = Some (lo, hi, d) ->
  (lo <= d)%Q /\ (d <= hi)%Q /\ (lo <= hi)%Q.
Proof.
  intros Hname Hparam.
  pose proof (EFFECTS_range_ok _ _ _ _ Hname Hparam) as Hok.
  unfold range_ok in Hok. apply andb_true_iff in Hok as [Hlo Hhi].
  apply Qle_bool_iff in Hlo, Hhi.
  repeat split; try assumption. eapply Qle_trans; eassumption.
Qed.

(** X25: [EFFECTS] and [EFFECT_MAP] have the same keys: every effect that
    has declared parameters can be looked up by [update_effects], and every
    effect that [update_effects] knows has declared parameters. *)
Theorem EFFECTS_names_are_EFFECT_MAP_names (effect_name : string) :
  is_Some (EFFECTS !! effect_name) <-> is_Some (EFFECT_MAP !! effect_name).
Proof.
  rewrite <- !elem_of_dom, EFFECTS_dom. reflexivity.
Qed.



Section EffectCards.

Context {PB : Pedalboard_lib} {SF : Soundfile_lib} {SD : Sounddevice_lib}.

(** X27: for a chain of cards as [EffectCard] makes them,
    [update_effect_chain] never fails on a name: when it raises, a card of
    the chain has a class that raised that exception when called with the
    parameters of the card. *)
Theorem update_effect_chain_default_cards (effect_chain : list EffectCard)
  (w : World) (e : exn) :
  Forall (fun card => EffectCard_init (effect_name card) = Ok card)
         effect_chain ->
  fst (update_effect_chain effect_chain w) = Raise e ->
  exists card effect_class,
    In card effect_chain /\
    EFFECT_MAP !! effect_name card = Some effect_class /\
    new_plugin effect_class (card_parameters card) = Raise e.
Proof.
  intros Hcards. unfold update_effect_chain. rewrite update_effects_unfold.
  destruct (for_each _ _ _ _) as [[new_board | e'] w2] eqn:Hrun;
    cbn; intros Hraise; [discriminate |].
  injection Hraise as ->. apply build_loop_outcome in Hrun.
  destruct Hrun as (c & Hin & Hwhy).
  apply in_map_iff in Hin as (card & <- & Hin). cbn [name parameters] in Hwhy.
  exists card. destruct Hwhy as [[Hnone _] | (effect_class & Hcls & Hnew)].
  - exfalso. rewrite List.Forall_forall in Hcards.
    specialize (Hcards card Hin). unfold EffectCard_init in Hcards.
    destruct (EFFECTS !! effect_name card) as [ranges |] eqn:Hname;
      [| discriminate].
    assert (Hsome : is_Some (EFFECT_MAP !! effect_name card)).
    { apply elem_of_dom. rewrite <- EFFECTS_dom. apply elem_of_dom.
      rewrite Hname. eexists. reflexivity. }
    rewrite Hnone in Hsome. destruct Hsome as [? Habs]. discriminate.
  - exists effect_class. auto.
Qed.

End EffectCards.

(** * The further properties at concrete inputs *)

Section ConcreteMore.

Import Doubles Fixtures.

Local Existing Instance echo_lib.
Local Existing Instance assoc_files.
Local Existing Instance null_device.
Local Existing Instance plain_format.
Local Existing Instance null_duplex.

(** X1 at a board of one pass-through effect. *)
Lemma process_chunk_limits_board_output_witness :
  fst (process_chunk loud_block effects_world) = Ok loud_block.
Proof.
  assert (Hboard : board (processor effects_world) <> []) by discriminate.
  rewrite (process_chunk_limits_board_output loud_block effects_world
             (transpose loud_block) loud_block [(Gain, ∅)] limiter
             Hboard eq_refl eq_refl).
  reflexivity.
Defined.

(** X4 at a chain with an unknown name. *)
Lemma update_effects_failure_reasons_witness :
  exists c, In c [gain_100; fuzz] /\
    ((EFFECT_MAP !! name c = None /\ KeyError "Fuzz" = KeyError (name c)) \/
     exists effect_class,
       EFFECT_MAP !! name c = Some effect_class /\
       new_plugin effect_class (parameters c) = Raise (KeyError "Fuzz")).
Proof.
  apply (update_effects_failure_reasons [gain_100; fuzz] quiet_world).
  vm_compute. exact eq_refl.
Defined.

(** X7 at a disk that refuses writes. *)
Lemma save_recording_write_failure_witness :
  save_recording (SF := read_only_files) "out.wav" read_only_world
  = (Ok false,
     print (SF := read_only_files) "Save error: Error opening file"
       read_only_world).
Proof.
  assert (Hcols : Forall (fun b => ncols b = ncols block_A) [block_B])
    by (repeat constructor).
  apply (save_recording_write_failure (SF := read_only_files) "out.wav"
           read_only_world block_A [block_B]
           (RuntimeError "Error opening file") eq_refl Hcols eq_refl).
Defined.

(** X8 at a stereo block followed by a mono block. *)
Lemma save_recording_channel_mismatch_witness :
  fst (save_recording "out.wav" mismatch_world) = Ok false /\
  disk (snd (save_recording "out.wav" mismatch_world)) = [].
Proof.
  assert (Hbad : Exists (fun b => ncols b <> ncols block_A) [mono_block])
    by (constructor; discriminate).
  rewrite (save_recording_channel_mismatch "out.wav" mismatch_world
             block_A [mono_block] eq_refl Hbad).
  split; reflexivity.
Defined.

(** X10 at a file of peak 1.5. *)
Lemma load_file_leaves_headroom_witness :
  exists loaded,
    audio_data (session (snd (load_file (world_with_file file_peak_1_5))))
    = Some loaded /\
    len loaded = 3 /\ (peak loaded <= float32_0_8)%Q.
Proof.
  assert (Hload : load_file (world_with_file file_peak_1_5)
                  = (Ok true, snd (load_file (world_with_file file_peak_1_5))))
    by (vm_compute; exact eq_refl).
  destruct (load_file_leaves_headroom (world_with_file file_peak_1_5) _
              file_peak_1_5 44100 eq_refl Hload)
    as (loaded & Hdata & Hlen & _ & _ & _ & Hpeak).
  exists loaded. auto.
Defined.

(** X11 at a file without frames. *)
Lemma load_file_empty_file_witness :
  fst (load_file (world_with_file (block []))) = Ok false.
Proof.
  rewrite (load_file_empty_file (world_with_file (block [])) (block [])
             44100 eq_refl eq_refl).
  reflexivity.
Defined.

(** X12 at an engine without the file on disk. *)
Lemma start_unreadable_file_witness :
  start quiet_world
  = (Ok false, print "Load error: Error opening file" quiet_world).
Proof.
  apply (start_unreadable_file quiet_world
           (RuntimeError "Error opening file") eq_refl).
Defined.

(** X13 at a file of three frames. *)
Lemma start_after_load_witness :
  is_running (session started_world) = true /\
  recorded_chunks (processor started_world) = [] /\
  current_frame (session started_world) = 0.
Proof.
  assert (Hload : load_file (world_with_file file_peak_0_3_long)
                  = (Ok true, snd (load_file (world_with_file file_peak_0_3_long))))
    by (vm_compute; exact eq_refl).
  destruct (start_after_load (world_with_file file_peak_0_3_long) _ Hload)
    as (Hrun & _ & Hrec & Hcur & _).
  auto.
Defined.

(** X15 at a session stopped right after it started. *)
Lemma audio_callback_after_stop_witness :
  exists w2,
    audio_callback 4 None (snd (stop started_world)) = (Ok tt, w2) /\
    outdata w2 = silence 4 /\
    recorded_chunks (processor w2) = [].
Proof.
  destruct (audio_callback_after_stop 4 None started_world
              file_peak_0_3_long eq_refl)
    as (w2 & Hcb & Hout & Hrec & _).
  exists w2. auto.
Defined.

(** X16 at a session of three frames asked for two. *)
Lemma playback_without_effects_step_witness :
  exists w',
    audio_callback 2 None started_world = (Ok tt, w') /\
    rows (outdata w') = [[0.1; -0.3]; [0.3; 0]]%Q /\
    recorded_rows w' = [[0.1; -0.3]; [0.3; 0]]%Q /\
    current_frame (session w') = 2 /\
    is_running (session w') = true.
Proof.
  assert (Hmore : current_frame (session started_world) < len file_peak_0_3_long)
    by (vm_compute; lia).
  destruct (playback_without_effects_step 2 None started_world
              file_peak_0_3_long eq_refl eq_refl eq_refl eq_refl Hmore)
    as (w' & Hcb & Hout & Hrec & Hcur & Hrun).
  exists w'. rewrite Hrun, Hcur. auto.
Defined.

(** X17 at a session of three frames played in one invocation of four. *)
Lemma playback_without_effects_records_file_witness :
  recorded_rows (snd (audio_callback 4 None started_world))
  = rows file_peak_0_3_long.
Proof.
  assert (Hcalls : callbacks_from started_world
                     (snd (audio_callback 4 None started_world))).
  { eapply callbacks_more; [apply callbacks_none |].
    apply surjective_pairing. }
  assert (Hle : current_frame (session started_world) <= len file_peak_0_3_long)
    by (vm_compute; lia).
  destruct (playback_without_effects_records_file started_world _
              file_peak_0_3_long eq_refl eq_refl eq_refl Hle eq_refl Hcalls)
    as (_ & _ & Hfull).
  apply Hfull. vm_compute. exact eq_refl.
Defined.

(** X28 at a session of three frames asked for two. *)
Lemma audio_callback_full_window_witness :
  exists w',
    audio_callback 2 None started_world = (Ok tt, w') /\
    current_frame (session w') = 2 /\
    is_running (session w') = true.
Proof.
  assert (Hpos : 0 < 2) by lia.
  assert (Hfits : current_frame (session started_world) + 2
                  <= len file_peak_0_3_long) by (vm_compute; lia).
  assert (Hrun : is_running (session started_world) = true)
    by (vm_compute; exact eq_refl).
  assert (Hdata : audio_data (session started_world) = Some file_peak_0_3_long)
    by (vm_compute; exact eq_refl).
  assert (Hproc :
    process_chunk
      (slice file_peak_0_3_long (current_frame (session started_world))
         (current_frame (session started_world) + 2))
      (snd (report_status None started_world))
    = (Ok (block [[0.1; -0.3]; [0.3; 0]]%Q),
       emit EvRelease (emit EvAcquire started_world)))
    by (vm_compute; exact eq_refl).
  destruct (audio_callback_full_window 2 None started_world
              file_peak_0_3_long
              (block [[0.1; -0.3]; [0.3; 0]]%Q)
              (emit EvRelease (emit EvAcquire started_world))
              Hrun Hdata Hpos Hfits Hproc eq_refl eq_refl)
    as (_ & _ & w' & Hcb & _ & _ & _ & Hcur & Hstill).
  exists w'. split; [exact Hcb |]. split; [exact Hcur |].
  rewrite Hstill. vm_compute. exact eq_refl.
Defined.

(** X18 at a stopped live session. *)
Lemma live_audio_callback_stopped_witness :
  exists lw',
    live_audio_callback block_A 2 None (live_world false) = (Ok tt, lw') /\
    outdata (world lw') = silence 2 /\
    recorded_chunks (processor (world lw')) = [].
Proof.
  destruct (live_audio_callback_stopped block_A 2 None (live_world false)
              eq_refl eq_refl eq_refl)
    as (lw' & Hcb & Hout & Hproc & _).
  exists lw'. rewrite Hproc. auto.
Defined.

(** X19 at a running live session. *)
Lemma live_audio_callback_monitors_witness :
  exists lw',
    live_audio_callback block_A 2 None (live_world true) = (Ok tt, lw') /\
    rows (outdata (world lw')) = rows block_A /\
    recorded_chunks (processor (world lw')) = [block_A].
Proof.
  destruct (live_audio_callback_monitors block_A 2 None (live_world true)
              block_A (emit EvRelease (emit EvAcquire quiet_world))
              eq_refl eq_refl eq_refl eq_refl)
    as (lw' & Hcb & Hout & Hrec & _).
  exists lw'. auto.
Defined.

(** X20 at a block of three channels. *)
Lemma live_audio_callback_records_before_output_witness :
  exists lw',
    live_audio_callback wide_block 1 None (live_world true)
    = (Raise (ValueError "could not broadcast input array"), lw') /\
    recorded_chunks (processor (world lw')) = [wide_block].
Proof.
  destruct (live_audio_callback_records_before_output wide_block 1 None
              (live_world true) wide_block
              (emit EvRelease (emit EvAcquire quiet_world))
              (ValueError "could not broadcast input array")
              eq_refl eq_refl eq_refl)
    as (lw' & Hcb & Hrec & _).
  exists lw'. auto.
Defined.

(** X21 at a running live session on a fresh engine. *)
Lemma live_audio_callback_without_effects_witness :
  exists lw',
    live_audio_callback block_A 2 None (live_world true) = (Ok tt, lw') /\
    outdata (world lw') = block_A.
Proof.
  destruct (live_audio_callback_without_effects block_A 2 None
              (live_world true) eq_refl eq_refl eq_refl eq_refl eq_refl)
    as (lw' & Hcb & Hout & _).
  exists lw'. auto.
Defined.

(** X24 at the gain. *)
Lemma EFFECTS_defaults_in_range_witness :
  (-60.0 <= 0.0)%Q /\ (0.0 <= 60.0)%Q /\ (-60.0 <= 60.0)%Q.
Proof.
  apply (EFFECTS_defaults_in_range "Gain" "gain_db"
           (list_to_map [("gain_db", (-60.0, 60.0, 0.0)%Q)])).
  - vm_compute. exact eq_refl.
  - vm_compute. exact eq_refl.
Defined.

(** X27 at a chain with a reverb, on a pedalboard without [Reverb]. *)
Lemma update_effect_chain_default_cards_witness :
  exists card effect_class,
    In card [default_card "Gain"; default_card "Reverb"] /\
    EFFECT_MAP !! effect_name card = Some effect_class /\
    new_plugin (Pedalboard_lib := no_reverb_lib) effect_class
      (card_parameters card)
    = Raise (RuntimeError "Reverb is not available").
Proof.
  apply (update_effect_chain_default_cards (PB := no_reverb_lib)
           [default_card "Gain"; default_card "Reverb"] no_reverb_world).
  - repeat constructor; vm_compute; exact eq_refl.
  - vm_compute. exact eq_refl.
Defined.




End ConcreteMore.
